(** * Session lifecycle of the Spotify relay (main.py)

    A shallow embedding of the request handlers of [main.py] and of the
    session authenticator [get_spotify_client] they all go through.

    The Flask session, the request arguments and the values exchanged with
    spotipy are Python values; handlers are computations in a state and
    exception monad over the session, with every call that leaves the
    process (token endpoint, Web API, logger) recorded in a trace. *)

From stdpp Require Import gmap strings list fin_maps pretty.

Open Scope list_scope.

(** ** Python values *)

(** The JSON-like values that live in the session cookie, in spotipy's
    results and in [jsonify] bodies. *)
#[local] Set Warnings "-register-all".
Inductive pyval : Type :=
| PNone
| PBool (b : bool)
| PInt (z : Z)
| PStr (s : string)
| PList (l : list pyval)
| PDict (d : gmap string pyval).

(** Python truthiness, as tested by [if x:] and [if not x:]. *)
Definition truthy (v : pyval) : bool :=
  match v with
  | PNone => false
  | PBool b => b
  | PInt z => negb (z =? 0)%Z
  | PStr s => negb (String.eqb s "")
  | PList l => match l with [] => false | _ => true end
  | PDict d => match map_to_list d with [] => false | _ => true end
  end.

(** ** Exceptions *)

(** The subclasses of [Exception] that the handlers can meet.
    [SpotifyException] is the Web API client's failure, the only class
    that [except SpotifyException] selects; [SpotifyOauthError] is the
    token endpoint's; [OtherException] stands for any further subclass of
    [Exception] (connection errors, timeouts, ...). *)
Inductive exn_class : Type :=
| KeyError
| TypeError
| AttributeError
| SpotifyException
| SpotifyOauthError
| OtherException.

Record exn : Type := Exn { cls : exn_class; str : string }.

Definition is_SpotifyException (e : exn) : bool :=
  match cls e with SpotifyException => true | _ => false end.

Inductive res (A : Type) : Type :=
| Ok (a : A)
| Raise (e : exn).
Arguments Ok {A} a.
Arguments Raise {A} e.

(** [v[k]] with a string key [k]: a lookup on a dict, a [TypeError] on
    every other value. *)
Definition getitem (v : pyval) (k : string) : res pyval :=
  match v with
  | PDict d =>
      match d !! k with
      | Some x => Ok x
      | None => Raise (Exn KeyError ("'" +:+ k +:+ "'"))
      end
  | PStr _ => Raise (Exn TypeError "string indices must be integers, not 'str'")
  | PList _ =>
      Raise (Exn TypeError "list indices must be integers or slices, not str")
  | PNone => Raise (Exn TypeError "'NoneType' object is not subscriptable")
  | PBool _ => Raise (Exn TypeError "'bool' object is not subscriptable")
  | PInt _ => Raise (Exn TypeError "'int' object is not subscriptable")
  end.

(** [v.get(k)], defined on dicts only. *)
Definition dict_get (v : pyval) (k : string) : res pyval :=
  match v with
  | PDict d => Ok (default PNone (d !! k))
  | _ => Raise (Exn AttributeError "object has no attribute 'get'")
  end.

(** The elements a [for x in v] visits.  Those of a str or of a dict are
    strs (characters, keys). *)
Definition py_iter (v : pyval) : res (list pyval) :=
  match v with
  | PList l => Ok l
  | PStr s => Ok ((fun c => PStr (String c "")) <$> String.list_ascii_of_string s)
  | PDict d => Ok ((fun kv => PStr kv.1) <$> map_to_list d)
  | PNone => Raise (Exn TypeError "'NoneType' object is not iterable")
  | PBool _ => Raise (Exn TypeError "'bool' object is not iterable")
  | PInt _ => Raise (Exn TypeError "'int' object is not iterable")
  end.

(** ** Requests and responses *)

(** [request.args], the query string: a parameter is absent, or present
    with a value that may be the empty string. *)
Definition args : Type := gmap string string.

(** [if x:] on the result of [request.args.get(k)], a str or [None]. *)
Definition truthy_arg (x : option string) : bool :=
  match x with
  | Some v => negb (String.eqb v "")
  | None => false
  end.

(** A parameter that [if x:] takes as missing: absent, or empty. *)
Definition blank (x : option string) : Prop := x = None \/ x = Some "".

(** [f"{x}"] on a str or [None]. *)
Definition fmt_arg (x : option string) : string :=
  match x with
  | Some v => v
  | None => "None"
  end.

Inductive payload : Type :=
| Location (url : string)   (* a redirect to [url] *)
| Html (body : string)      (* a str returned by the view *)
| Json (body : pyval).      (* the argument of [jsonify] *)

Record response : Type := MkResponse { status : Z; content : payload }.

(** [redirect(url)] *)
Definition redirect (url : string) : response := MkResponse 302 (Location url).

(** [return body]: Flask answers 200. *)
Definition html (body : string) : response := MkResponse 200 (Html body).

(** [return jsonify(body)] *)
Definition jsonify (body : pyval) : response := MkResponse 200 (Json body).

(** [return jsonify(body), code] *)
Definition jsonify_status (body : pyval) (code : Z) : response :=
  MkResponse code (Json body).

(** [url_for(endpoint)] for the routes registered in main.py without
    parameters (lines 75, 94, 119, 125, 147, 213, 238). *)
Definition url_for (endpoint : string) : string :=
  if String.eqb endpoint "index" then "/"
  else if String.eqb endpoint "callback" then "/callback"
  else if String.eqb endpoint "logout" then "/auth/logout"
  else if String.eqb endpoint "auth_status" then "/auth/status"
  else if String.eqb endpoint "create_playlist" then "/create_playlist"
  else if String.eqb endpoint "get_user_playlists" then "/api/user/playlists"
  else if String.eqb endpoint "search_tracks" then "/api/search"
  else "".

(** ** The world outside the process *)

(** A Web API client, [Spotify(auth=...)]: it holds the bearer token. *)
Record Spotify : Type := MkSpotify { auth : pyval }.

(** The client methods the handlers call, with their arguments. *)
Inductive api_call : Type :=
| current_user (sp : Spotify)
| playlist_add_items (sp : Spotify) (playlist_id : string) (items : list string)
| playlist_remove_all_occurrences_of_items
    (sp : Spotify) (playlist_id : string) (items : list string)
| current_user_playlists (sp : Spotify) (limit : Z)
| search (sp : Spotify) (q : string) (type : string) (limit : Z).

(** What a request does that is visible outside the handler. *)
Inductive event : Type :=
| EvRefresh (refresh_token : pyval)   (* sp_oauth.refresh_access_token *)
| EvExchange (code : option string)   (* sp_oauth.get_access_token *)
| EvApi (c : api_call)                (* a method of the Spotify client *)
| EvLog (msg : string).               (* logger.error *)

(** spotipy and the services behind it are not part of the repository:
    they answer as functions of the interaction so far and of the
    arguments, and may raise. *)
Record Env : Type := MkEnv {
  env_is_token_expired : list event -> pyval -> res bool;
  env_refresh_access_token : list event -> pyval -> res pyval;
  env_get_access_token : list event -> option string -> res pyval;
  env_api : list event -> api_call -> res pyval
}.

(** ** Request state and the handler monad *)

Record state : Type := MkState {
  session : gmap string pyval;   (* flask.session, as a dict *)
  permanent : bool;              (* session.permanent *)
  trace : list event             (* oldest event first *)
}.

Definition M (A : Type) : Type := state -> res A * state.

Definition ret {A} (a : A) : M A := fun s => (Ok a, s).

Definition raise {A} (e : exn) : M A := fun s => (Raise e, s).

Definition bind {A B} (m : M A) (k : A -> M B) : M B :=
  fun s =>
    match m s with
    | (Ok a, s') => k a s'
    | (Raise e, s') => (Raise e, s')
    end.

(** [try: m / except Exception as e: h e]. *)
Definition try_except {A} (m : M A) (h : exn -> M A) : M A :=
  fun s =>
    match m s with
    | (Ok a, s') => (Ok a, s')
    | (Raise e, s') => h e s'
    end.

(** [try: m / except SpotifyException as e: h e]; other classes pass. *)
Definition try_except_SpotifyException {A} (m : M A) (h : exn -> M A) : M A :=
  try_except m (fun e => if is_SpotifyException e then h e else raise e).

(** [try: m / except SpotifyException as e: h1 e / except Exception as e: h2 e] *)
Definition try_except2 {A} (m : M A) (h1 h2 : exn -> M A) : M A :=
  try_except m (fun e => if is_SpotifyException e then h1 e else h2 e).

Definition lift {A} (r : res A) : M A := fun s => (r, s).

Declare Scope py_scope.
Delimit Scope py_scope with py.
Notation "'do' x <- m ; k" := (bind m (fun x => k))
  (at level 10, x name, m at level 99, k at level 200) : py_scope.
Notation "m ;; k" := (bind m (fun _ => k))
  (at level 100, k at level 200, right associativity) : py_scope.
Open Scope py_scope.

Definition emit (e : event) : M unit :=
  fun s => (Ok tt, MkState (session s) (permanent s) (trace s ++ [e])).

(** [session.get(k)] *)
Definition session_get (k : string) : M pyval :=
  fun s => (Ok (default PNone (session s !! k)), s).

(** [session[k] = v] *)
Definition session_set (k : string) (v : pyval) : M unit :=
  fun s => (Ok tt, MkState (<[k := v]> (session s)) (permanent s) (trace s)).

(** [session.pop(k, None)] *)
Definition session_pop (k : string) : M unit :=
  fun s => (Ok tt, MkState (delete k (session s)) (permanent s) (trace s)).

(** [session.permanent = b] *)
Definition session_set_permanent (b : bool) : M unit :=
  fun s => (Ok tt, MkState (session s) b (trace s)).

(** [logger.error(msg)] *)
Definition logger_error (msg : string) : M unit := emit (EvLog msg).

(** [[f x for x in l]], left to right; the first exception ends it. *)
Fixpoint comprehension {A B} (f : A -> M B) (l : list A) : M (list B) :=
  match l with
  | [] => ret []
  | x :: l' =>
      do y <- f x;
      do ys <- comprehension f l';
      ret (y :: ys)
  end.

Section Handlers.

Variable env : Env.

(** [sp_oauth.is_token_expired(token_info)]: a local computation of
    spotipy, no event. *)
Definition is_token_expired (token_info : pyval) : M bool :=
  fun s => (env_is_token_expired env (trace s) token_info, s).

(** [sp_oauth.refresh_access_token(refresh_token)] *)
Definition refresh_access_token (refresh_token : pyval) : M pyval :=
  fun s =>
    (env_refresh_access_token env (trace s) refresh_token,
     MkState (session s) (permanent s) (trace s ++ [EvRefresh refresh_token])).

(** [sp_oauth.get_access_token(code)] *)
Definition get_access_token (code : option string) : M pyval :=
  fun s =>
    (env_get_access_token env (trace s) code,
     MkState (session s) (permanent s) (trace s ++ [EvExchange code])).

(** A method call on the Spotify client. *)
Definition api (c : api_call) : M pyval :=
  fun s =>
    (env_api env (trace s) c,
     MkState (session s) (permanent s) (trace s ++ [EvApi c])).

(** main.py, lines 43-59.  The [return None] of the [except] branch is
    the [None] of the inner computation; [Some token_info] falls through
    to line 59. *)
Definition get_spotify_client : M (option Spotify) :=
  do token_info <- session_get "token_info";
  if negb (truthy token_info) then ret None
  else
    do expired <- is_token_expired token_info;
    do live <-
      (if expired then
         try_except
           (do refresh_token <- lift (getitem token_info "refresh_token");
            do token_info' <- refresh_access_token refresh_token;
            session_set "token_info" token_info';;
            ret (Some token_info'))
           (fun e =>
              logger_error ("Token refresh failed: " +:+ str e);;
              session_pop "token_info";;
              ret None)
       else ret (Some token_info));
    match live with
    | None => ret None
    | Some token_info =>
        do access_token <- lift (getitem token_info "access_token");
        ret (Some (MkSpotify access_token))
    end.

(** main.py, lines 94-117. *)
Definition callback (request_args : args) : M response :=
  try_except
    (let code := request_args !! "code" in
     let error := request_args !! "error" in
     if truthy_arg error then
       logger_error ("OAuth error: " +:+ fmt_arg error);;
       ret (redirect "/?error=access_denied")
     else if negb (truthy_arg code) then
       logger_error "No authorization code received";;
       ret (redirect "/?error=no_code")
     else
       do token_info <- get_access_token code;
       session_set "token_info" token_info;;
       session_set_permanent true;;
       ret (redirect (url_for "create_playlist")))
    (fun e =>
       logger_error ("Callback error: " +:+ str e);;
       ret (redirect "/?error=callback_failed")).

(** main.py, lines 125-144.  [None] from the [if sp:] block means that
    control reaches line 144. *)
Definition auth_status : M response :=
  do sp <- get_spotify_client;
  do returned <-
    match sp with
    | Some sp =>
        try_except_SpotifyException
          (do user <- api (current_user sp);
           do id <- lift (getitem user "id");
           do display_name <- lift (dict_get user "display_name");
           do email <- lift (dict_get user "email");
           ret (Some (jsonify (PDict (list_to_map
             [("authenticated", PBool true);
              ("user", PDict (list_to_map
                 [("id", id);
                  ("display_name", display_name);
                  ("email", email)]))])))))
          (fun e =>
             logger_error ("Spotify API error: " +:+ str e);;
             session_pop "token_info";;
             ret None)
    | None => ret None
    end;
  match returned with
  | Some r => ret r
  | None => ret (jsonify (PDict {["authenticated" := PBool false]}))
  end.

(** main.py, lines 189-211. *)
Definition modify_playlist (playlist_id action track_uri : string) : M response :=
  do sp <- get_spotify_client;
  match sp with
  | None => ret (redirect "/")
  | Some sp =>
      try_except2
        (if String.eqb action "add" then
           api (playlist_add_items sp playlist_id [track_uri]);;
           ret (html ("<h1>Success!</h1><p>Added " +:+ track_uri
                      +:+ "</p><p><a href='/'>Back to Home</a></p>"))
         else if String.eqb action "remove" then
           api (playlist_remove_all_occurrences_of_items sp playlist_id [track_uri]);;
           ret (html ("<h1>Success!</h1><p>Removed " +:+ track_uri
                      +:+ "</p><p><a href='/'>Back to Home</a></p>"))
         else
           ret (html "<h1>Invalid action</h1><p>Use 'add' or 'remove'</p><p><a href='/'>Back to Home</a></p>"))
        (fun e =>
           logger_error ("Spotify API error in modify_playlist: " +:+ str e);;
           ret (html ("<h1>Error modifying playlist</h1><p>" +:+ str e
                      +:+ "</p><p><a href='/'>Back to Home</a></p>")))
        (fun e =>
           logger_error ("Unexpected error in modify_playlist: " +:+ str e);;
           ret (html "<h1>Unexpected error</h1><p><a href='/'>Back to Home</a></p>"))
  end.

(** main.py, lines 213-236. *)
Definition get_user_playlists : M response :=
  do sp <- get_spotify_client;
  match sp with
  | None => ret (jsonify_status (PDict {["error" := PStr "Not authenticated"]}) 401)
  | Some sp =>
      try_except2
        (do playlists <- api (current_user_playlists sp 50);
         do items <- lift (getitem playlists "items");
         do items <- lift (py_iter items);
         do projected <- comprehension
           (fun playlist =>
              do id <- lift (getitem playlist "id");
              do name <- lift (getitem playlist "name");
              do tracks <- lift (getitem playlist "tracks");
              do total <- lift (getitem tracks "total");
              do public <- lift (getitem playlist "public");
              do external_urls <- lift (getitem playlist "external_urls");
              do url <- lift (getitem external_urls "spotify");
              ret (PDict (list_to_map
                [("id", id); ("name", name); ("tracks", total);
                 ("public", public); ("url", url)])))
           items;
         ret (jsonify (PDict {["playlists" := PList projected]})))
        (fun e =>
           logger_error ("Spotify API error in get_user_playlists: " +:+ str e);;
           ret (jsonify_status
                  (PDict {["error" := PStr ("Spotify API error: " +:+ str e)]}) 400))
        (fun e =>
           logger_error ("Unexpected error in get_user_playlists: " +:+ str e);;
           ret (jsonify_status (PDict {["error" := PStr "Internal server error"]}) 500))
  end.

(** main.py, lines 238-267. *)
Definition search_tracks (request_args : args) : M response :=
  do sp <- get_spotify_client;
  match sp with
  | None => ret (jsonify_status (PDict {["error" := PStr "Not authenticated"]}) 401)
  | Some sp =>
      try_except2
        (let query := default "" (request_args !! "q") in
         if String.eqb query "" then
           ret (jsonify_status
                  (PDict {["error" := PStr "No search query provided"]}) 400)
         else
           do results <- api (search sp query "track" 20);
           do found <- lift (getitem results "tracks");
           do items <- lift (getitem found "items");
           do items <- lift (py_iter items);
           do tracks <- comprehension
             (fun track =>
                do uri <- lift (getitem track "uri");
                do name <- lift (getitem track "name");
                do artists <- lift (getitem track "artists");
                do artists <- lift (py_iter artists);
                do names <- comprehension
                  (fun artist => lift (getitem artist "name")) artists;
                do album <- lift (getitem track "album");
                do album_name <- lift (getitem album "name");
                do duration_ms <- lift (getitem track "duration_ms");
                do preview_url <- lift (getitem track "preview_url");
                ret (PDict (list_to_map
                  [("uri", uri); ("name", name); ("artists", PList names);
                   ("album", album_name); ("duration_ms", duration_ms);
                   ("preview_url", preview_url)])))
             items;
           ret (jsonify (PDict {["tracks" := PList tracks]})))
        (fun e =>
           logger_error ("Spotify API error in search_tracks: " +:+ str e);;
           ret (jsonify_status
                  (PDict {["error" := PStr ("Spotify API error: " +:+ str e)]}) 400))
        (fun e =>
           logger_error ("Unexpected error in search_tracks: " +:+ str e);;
           ret (jsonify_status (PDict {["error" := PStr "Internal server error"]}) 500))
  end.

End Handlers.

(** ** Observations on states and traces *)

Definition is_refresh (e : event) : bool :=
  match e with EvRefresh _ => true | _ => false end.

Definition is_exchange (e : event) : bool :=
  match e with EvExchange _ => true | _ => false end.

Definition is_api (e : event) : bool :=
  match e with EvApi _ => true | _ => false end.

(** How many events of a kind a trace holds. *)
Definition count (p : event -> bool) (t : list event) : nat :=
  length (List.filter p t).

(** Closes the goals that compare a concrete piece of trace. *)
Ltac frame_done :=
  simpl; repeat split; try reflexivity; unfold count; simpl; lia.


(** ** A concrete environment, for running the handlers *)

Module Sample.

(** The token the sample provider hands out. *)
Definition fresh_token : pyval :=
  PDict (list_to_map
    [("access_token", PStr "new-access"); ("refresh_token", PStr "refresh-1");
     ("expires_at", PInt 7200); ("scope", PStr "user-read-private")]).

Definition sample_user : pyval :=
  PDict (list_to_map [("id", PStr "u1"); ("display_name", PStr "Ann")]).

Definition sample_playlist : pyval :=
  PDict (list_to_map
    [("id", PStr "p1"); ("name", PStr "Mix");
     ("tracks", PDict {["total" := PInt 2]}); ("public", PBool false);
     ("external_urls", PDict {["spotify" := PStr "https://open.spotify.com/playlist/p1"]})]).

Definition sample_track : pyval :=
  PDict (list_to_map
    [("uri", PStr "spotify:track:1"); ("name", PStr "Song");
     ("artists", PList [PDict {["name" := PStr "Band"]}]);
     ("album", PDict {["name" := PStr "Record"]});
     ("duration_ms", PInt 1000); ("preview_url", PNone)]).

(** A provider with its clock stopped at [now]: a token has lapsed once
    the clock has reached its [expires_at]; a refresh or a code exchange
    succeeds, with [fresh_token], when [up] holds; the Web API answers
    when [api_up] holds and is rate-limited otherwise. *)
Definition provider (now : Z) (up : bool) (api_up : bool) : Env :=
  {| env_is_token_expired := fun _ token_info =>
       match getitem token_info "expires_at" with
       | Ok (PInt t) => Ok (t <=? now)%Z
       | Ok _ => Raise (Exn TypeError "unsupported operand type(s) for -")
       | Raise e => Raise e
       end;
     env_refresh_access_token := fun _ _ =>
       if up then Ok fresh_token
       else Raise (Exn SpotifyOauthError "error: invalid_grant");
     env_get_access_token := fun _ _ =>
       if up then Ok fresh_token
       else Raise (Exn SpotifyOauthError "error: invalid_grant");
     env_api := fun _ c =>
       if api_up then
         match c with
         | current_user _ => Ok sample_user
         | current_user_playlists _ _ =>
             Ok (PDict {["items" := PList [sample_playlist]]})
         | search _ _ _ _ =>
             Ok (PDict {["tracks" := PDict {["items" := PList [sample_track]]}]})
         | _ => Ok PNone
         end
       else Raise (Exn SpotifyException "http status: 429") |}.

Definition stored_token : pyval :=
  PDict (list_to_map
    [("access_token", PStr "old-access"); ("refresh_token", PStr "refresh-1");
     ("expires_at", PInt 3600); ("scope", PStr "user-read-private")]).

Definition logged_in : state :=
  MkState {["token_info" := stored_token]} true [].

Definition anonymous : state := MkState ∅ false [].

End Sample.


(** ** The views outside the session lifecycle *)

(** The double quote and the line feed, as strings. *)
Definition dq : string := String (Ascii.ascii_of_nat 34) "".
Definition nl : string := String (Ascii.ascii_of_nat 10) "".

(** [session.clear()].  Flask keeps [session.permanent] in the session
    dict itself, under [_permanent], so it goes with the other keys. *)
Definition session_clear : M unit :=
  fun s => (Ok tt, MkState ∅ false (trace s)).

(** main.py, lines 119-123. *)
Definition logout : M response :=
  session_clear;;
  ret (redirect "/").

(** [v.get(k, dflt)].  The attribute [get] is looked up first, then the
    argument [dflt] is evaluated, then the call is made. *)
Definition dict_get_default (v : pyval) (k : string) (dflt : res pyval)
  : res pyval :=
  match v with
  | PDict d =>
      match dflt with
      | Ok x => Ok (default x (d !! k))
      | Raise e => Raise e
      end
  | _ => Raise (Exn AttributeError "object has no attribute 'get'")
  end.

(** The page of lines 82-86, around the formatted name. *)
Definition welcome_page (name : string) : string :=
  nl +:+ "            <h1>Welcome " +:+ name +:+ "!</h1>" +:+ nl +:+
  "            <p><a href=" +:+ dq +:+ "/create_playlist" +:+ dq +:+
  ">Create Playlist</a></p>" +:+ nl +:+
  "            <p><a href=" +:+ dq +:+ "/auth/logout" +:+ dq +:+
  ">Logout</a></p>" +:+ nl +:+
  "            ".

(** The link of line 91. *)
Definition login_link (auth_url : string) : string :=
  "<a href=" +:+ dq +:+ auth_url +:+ dq +:+ ">Login with Spotify</a>".

Section Pages.

Variable env : Env.

(** [sp_oauth.get_authorize_url()]: the authorize URL that spotipy builds
    from the client id, the redirect URI and the scope. *)
Variable authorize_url : string.

(** [repr] of a list or of a dict, which depends on the order in which
    the dict was filled. *)
Variable py_repr : pyval -> string.

(** [f"{v}"] *)
Definition py_format (v : pyval) : string :=
  match v with
  | PNone => "None"
  | PBool true => "True"
  | PBool false => "False"
  | PInt z => pretty z
  | PStr s => s
  | PList _ | PDict _ => py_repr v
  end.

(** main.py, lines 75-91.  The bare [except: pass] takes every exception
    of the [try] block; [None] from the [if sp:] block means that control
    reaches line 90. *)
Definition index : M response :=
  do sp <- get_spotify_client env;
  do returned <-
    match sp with
    | Some sp =>
        try_except
          (do user <- api env (current_user sp);
           do name <- lift (dict_get_default user "display_name"
                                             (getitem user "id"));
           ret (Some (html (welcome_page (py_format name)))))
          (fun _ => ret None)
    | None => ret None
    end;
  match returned with
  | Some r => ret r
  | None => ret (html (login_link authorize_url))
  end.

(** [os.path.join], [os.path.exists] and Flask's [send_from_directory]:
    the file system under the working directory. *)
Variable os_path_join : string -> string -> string.
Variable os_path_exists : string -> bool.
Variable send_from_directory : string -> string -> res response.

(** main.py, lines 62-72. *)
Definition serve_frontend (path : string) : M response :=
  try_except
    (if negb (String.eqb path "") && os_path_exists (os_path_join "dist" path)
     then lift (send_from_directory "dist" path)
     else lift (send_from_directory "dist" "index.html"))
    (fun e =>
       logger_error ("Error serving frontend: " +:+ str e);;
       ret (MkResponse 404 (Html "Frontend not found"))).

End Pages.

(** ** The ways through the authenticator *)

Section Paths.

Variable env : Env.

(** The outcomes of [get_spotify_client] from a state [s], one
    constructor for each way through lines 45-59. *)
Inductive gsc_path (s : state) : res (option Spotify) * state -> Prop :=
| gsc_absent :
    truthy (default PNone (session s !! "token_info")) = false ->
    gsc_path s (Ok None, s)
| gsc_expiry_raises token_info e :
    session s !! "token_info" = Some token_info ->
    truthy token_info = true ->
    env_is_token_expired env (trace s) token_info = Raise e ->
    gsc_path s (Raise e, s)
| gsc_live token_info r :
    session s !! "token_info" = Some token_info ->
    truthy token_info = true ->
    env_is_token_expired env (trace s) token_info = Ok false ->
    r = match getitem token_info "access_token" with
        | Ok tok => Ok (Some (MkSpotify tok))
        | Raise e => Raise e
        end ->
    gsc_path s (r, s)
| gsc_no_refresh_token token_info e :
    session s !! "token_info" = Some token_info ->
    truthy token_info = true ->
    env_is_token_expired env (trace s) token_info = Ok true ->
    getitem token_info "refresh_token" = Raise e ->
    gsc_path s
      (Ok None,
       MkState (delete "token_info" (session s)) (permanent s)
               (trace s ++ [EvLog ("Token refresh failed: " +:+ str e)]))
| gsc_refresh_failed token_info rt e :
    session s !! "token_info" = Some token_info ->
    truthy token_info = true ->
    env_is_token_expired env (trace s) token_info = Ok true ->
    getitem token_info "refresh_token" = Ok rt ->
    env_refresh_access_token env (trace s) rt = Raise e ->
    gsc_path s
      (Ok None,
       MkState (delete "token_info" (session s)) (permanent s)
               (trace s ++ [EvRefresh rt;
                            EvLog ("Token refresh failed: " +:+ str e)]))
| gsc_refreshed token_info rt token_info' r :
    session s !! "token_info" = Some token_info ->
    truthy token_info = true ->
    env_is_token_expired env (trace s) token_info = Ok true ->
    getitem token_info "refresh_token" = Ok rt ->
    env_refresh_access_token env (trace s) rt = Ok token_info' ->
    r = match getitem token_info' "access_token" with
        | Ok tok => Ok (Some (MkSpotify tok))
        | Raise e => Raise e
        end ->
    gsc_path s
      (r,
       MkState (<["token_info" := token_info']> (session s)) (permanent s)
               (trace s ++ [EvRefresh rt])).

End Paths.

(** ** The projections of the API routes, on their own *)

(** What [get_user_playlists] and [search_tracks] compute from the value
    the Web API returned touches neither the session nor the outside
    world; it is written here once more without the state, to be compared
    with the routes. *)

Definition res_bind {A B} (r : res A) (k : A -> res B) : res B :=
  match r with
  | Ok a => k a
  | Raise e => Raise e
  end.

Notation "'let*' x := r 'in' k" := (res_bind r (fun x => k))
  (at level 10, x name, r at level 99, k at level 200) : py_scope.

(** [[f x for x in l]] for an [f] without effects. *)
Fixpoint mapM_res {A B} (f : A -> res B) (l : list A) : res (list B) :=
  match l with
  | [] => Ok []
  | x :: l' =>
      let* y := f x in
      let* ys := mapM_res f l' in
      Ok (y :: ys)
  end.

(** main.py, lines 223-229: one entry of the playlist list. *)
Definition playlist_entry (playlist : pyval) : res pyval :=
  let* id := getitem playlist "id" in
  let* name := getitem playlist "name" in
  let* tracks := getitem playlist "tracks" in
  let* total := getitem tracks "total" in
  let* public := getitem playlist "public" in
  let* external_urls := getitem playlist "external_urls" in
  let* url := getitem external_urls "spotify" in
  Ok (PDict (list_to_map
    [("id", id); ("name", name); ("tracks", total);
     ("public", public); ("url", url)])).

(** main.py, lines 222-230: the body of the 200 answer. *)
Definition playlists_body (playlists : pyval) : res pyval :=
  let* items := getitem playlists "items" in
  let* items := py_iter items in
  let* projected := mapM_res playlist_entry items in
  Ok (PDict {["playlists" := PList projected]}).

(** main.py, lines 251-258: one entry of the track list. *)
Definition track_entry (track : pyval) : res pyval :=
  let* uri := getitem track "uri" in
  let* name := getitem track "name" in
  let* artists := getitem track "artists" in
  let* artists := py_iter artists in
  let* names := mapM_res (fun artist => getitem artist "name") artists in
  let* album := getitem track "album" in
  let* album_name := getitem album "name" in
  let* duration_ms := getitem track "duration_ms" in
  let* preview_url := getitem track "preview_url" in
  Ok (PDict (list_to_map
    [("uri", uri); ("name", name); ("artists", PList names);
     ("album", album_name); ("duration_ms", duration_ms);
     ("preview_url", preview_url)])).

(** main.py, lines 250-260: the body of the 200 answer. *)
Definition tracks_body (results : pyval) : res pyval :=
  let* found := getitem results "tracks" in
  let* items := getitem found "items" in
  let* items := py_iter items in
  let* tracks := mapM_res track_entry items in
  Ok (PDict {["tracks" := PList tracks]}).

(** ** Configuration at import time *)

(** What lines 13-28 leave in the module and in [app.config]. *)
Record config : Type := MkConfig {
  CLIENT_ID : string;
  CLIENT_SECRET : string;
  REDIRECT_URI : string;
  SCOPE : string;
  secret_key : string;
  SESSION_COOKIE_NAME : string;
  SESSION_COOKIE_SECURE : bool;
  SESSION_COOKIE_HTTPONLY : bool;
  PERMANENT_SESSION_LIFETIME : Z
}.

(** main.py, lines 13-28, over the process environment as [load_dotenv]
    left it.  [inl msg] is [raise ValueError(msg)]. *)
Definition load_config (environ : gmap string string) : string + config :=
  let client_id := environ !! "CLIENT_ID" in
  let client_secret := environ !! "CLIENT_ID_SECRET" in
  let redirect_uri := environ !! "URI" in
  if negb (forallb truthy_arg [client_id; client_secret; redirect_uri]) then
    inl "Missing required environment variables: CLIENT_ID, CLIENT_SECRET, REDIRECT_URI"
  else
    inr {| CLIENT_ID := default "" client_id;
           CLIENT_SECRET := default "" client_secret;
           REDIRECT_URI := default "" redirect_uri;
           SCOPE := "playlist-modify-public playlist-modify-private user-top-read user-read-private";
           secret_key :=
             default (default "" client_secret) (environ !! "FLASK_SECRET_KEY");
           SESSION_COOKIE_NAME := "spotify-login-session";
           SESSION_COOKIE_SECURE := false;
           SESSION_COOKIE_HTTPONLY := true;
           PERMANENT_SESSION_LIFETIME := 3600 |}.

(** A file system with one bundled asset, for running [serve_frontend];
    [broken] makes every read fail. *)
Module SampleFiles.

Definition join (a b : string) : string := a +:+ "/" +:+ b.

Definition exists_ (p : string) : bool := String.eqb p "dist/app.js".

Definition send (broken : bool) (dir name : string) : res response :=
  if broken then Raise (Exn OtherException "404 Not Found")
  else Ok (MkResponse 200 (Html ("contents of " +:+ dir +:+ "/" +:+ name))).

Definition repr (v : pyval) : string := "[...]".

Definition authorize : string :=
  "https://accounts.spotify.com/authorize?client_id=abc&response_type=code".

(** A process environment with the three required variables. *)
Definition environ : gmap string string :=
  list_to_map [("CLIENT_ID", "abc"); ("CLIENT_ID_SECRET", "s3cret");
               ("URI", "http://localhost:5000/callback");
               ("FLASK_SECRET_KEY", "")].

End SampleFiles.

(** Further sessions: a token that was stored without its refresh token,
    and one without its access token. *)
Module SampleSessions.

Definition no_refresh_token : state :=
  MkState {["token_info" := PDict (list_to_map
             [("access_token", PStr "old-access"); ("expires_at", PInt 3600)]);
           "theme" := PStr "dark"]} true [].

Definition no_access_token : state :=
  MkState {["token_info" := PDict {["expires_at" := PInt 3600]}]} false [].

(** [Sample.provider] at time 100 with another Web API behind it. *)
Definition with_api (answer : api_call -> res pyval) : Env :=
  {| env_is_token_expired :=
       env_is_token_expired (Sample.provider 100 true true);
     env_refresh_access_token :=
       env_refresh_access_token (Sample.provider 100 true true);
     env_get_access_token :=
       env_get_access_token (Sample.provider 100 true true);
     env_api := fun _ c => answer c |}.

(** The network is down. *)
Definition offline : Env :=
  with_api (fun _ => Raise (Exn OtherException "Connection aborted")).



(** The Web API answers every call with a user object without [id]. *)
Definition nameless : Env :=
  with_api (fun _ => Ok (PDict {["display_name" := PStr "Ann"]})).

End SampleSessions.

(** ** The scenarios of the specification, run *)

(** A first login: [/callback?code=ABC123] on an empty session. *)
Example scenario_fresh_login :
  callback (Sample.provider 100 true true) {["code" := "ABC123"]}
           Sample.anonymous
  = (Ok (redirect "/create_playlist"),
     MkState {["token_info" := Sample.fresh_token]} true
             [EvExchange (Some "ABC123")]).
Proof. vm_compute. reflexivity. Qed.

(** [/api/search?q=test] with a token that lapsed ten minutes ago: the
    token is refreshed and the search goes out with the new one. *)
Example scenario_expired_token_search :
  search_tracks (Sample.provider 4200 true true) {["q" := "test"]}
                Sample.logged_in
  = (Ok (jsonify (PDict {["tracks" := PList
           [PDict (list_to_map
              [("uri", PStr "spotify:track:1"); ("name", PStr "Song");
               ("artists", PList [PStr "Band"]); ("album", PStr "Record");
               ("duration_ms", PInt 1000); ("preview_url", PNone)])]]})),
     MkState {["token_info" := Sample.fresh_token]} true
             [EvRefresh (PStr "refresh-1");
              EvApi (search (MkSpotify (PStr "new-access")) "test" "track" 20)]).
Proof. vm_compute. reflexivity. Qed.

(** [/api/user/playlists] with a valid token. *)
Example scenario_playlists :
  (get_user_playlists (Sample.provider 100 true true) Sample.logged_in).1
  = Ok (jsonify (PDict {["playlists" := PList
          [PDict (list_to_map
             [("id", PStr "p1"); ("name", PStr "Mix"); ("tracks", PInt 2);
              ("public", PBool false);
              ("url", PStr "https://open.spotify.com/playlist/p1")])]]})).
Proof. vm_compute. reflexivity. Qed.

(** A token without [access_token] that is not expired: line 59 raises
    [KeyError], outside of any [try]. *)
Example malformed_token_raises :
  (get_spotify_client (Sample.provider 100 true true)
     (MkState {["token_info" := PDict {["expires_at" := PInt 3600]}]} false [])).1
  = Raise (Exn KeyError "'access_token'").
Proof. vm_compute. reflexivity. Qed.

(** ** Running the monad *)

Lemma bind_Ok {A B} (m : M A) (k : A -> M B) s a s' :
  m s = (Ok a, s') -> bind m k s = k a s'.
Proof. intros E. unfold bind. now rewrite E. Qed.

Lemma count_app p t1 t2 : count p (t1 ++ t2) = count p t1 + count p t2.
Proof. unfold count. now rewrite List.filter_app, length_app. Qed.

(** ** Tokens *)

Lemma getitem_truthy v k x : getitem v k = Ok x -> truthy v = true.
Proof.
  destruct v as [| | | | |d]; simpl; try discriminate.
  destruct (d !! k) as [y|] eqn:E; [intros _|discriminate].
  destruct (map_to_list d) as [|kv l] eqn:L; [|reflexivity].
  apply map_to_list_empty_iff in L. subst d.
  now rewrite lookup_empty in E.
Qed.



(** ** The session authenticator *)

Section Authenticator.

Variable env : Env.

(** The three ways through [get_spotify_client], each as an equation on
    the whole outcome. *)

Lemma get_spotify_client_absent s :
  truthy (default PNone (session s !! "token_info")) = false ->
  get_spotify_client env s = (Ok None, s).
Proof.
  intros F. unfold get_spotify_client, bind, session_get. now rewrite F.
Qed.

Lemma get_spotify_client_live s token_info :
  session s !! "token_info" = Some token_info ->
  truthy token_info = true ->
  env_is_token_expired env (trace s) token_info = Ok false ->
  get_spotify_client env s =
    match getitem token_info "access_token" with
    | Ok tok => (Ok (Some (MkSpotify tok)), s)
    | Raise e => (Raise e, s)
    end.
Proof.
  intros L T X.
  unfold get_spotify_client, bind, session_get, is_token_expired, lift, ret.
  rewrite L; simpl; rewrite T; simpl; rewrite X; simpl.
  now destruct (getitem token_info "access_token").
Qed.

Lemma get_spotify_client_stale s token_info :
  session s !! "token_info" = Some token_info ->
  truthy token_info = true ->
  env_is_token_expired env (trace s) token_info = Ok true ->
  get_spotify_client env s =
    match getitem token_info "refresh_token" with
    | Raise e =>
        (Ok None,
         MkState (delete "token_info" (session s)) (permanent s)
                 (trace s ++ [EvLog ("Token refresh failed: " +:+ str e)]))
    | Ok rt =>
        match env_refresh_access_token env (trace s) rt with
        | Raise e =>
            (Ok None,
             MkState (delete "token_info" (session s)) (permanent s)
                     (trace s ++ [EvRefresh rt;
                                  EvLog ("Token refresh failed: " +:+ str e)]))
        | Ok token_info' =>
            let s' := MkState (<["token_info" := token_info']> (session s))
                              (permanent s) (trace s ++ [EvRefresh rt]) in
            match getitem token_info' "access_token" with
            | Ok tok => (Ok (Some (MkSpotify tok)), s')
            | Raise e => (Raise e, s')
            end
        end
    end.
Proof.
  intros L T X.
  unfold get_spotify_client, bind, session_get, is_token_expired, lift, ret,
    try_except, refresh_access_token, session_set, session_pop, logger_error,
    emit.
  rewrite L; simpl; rewrite T; simpl; rewrite X; simpl.
  destruct (getitem token_info "refresh_token") as [rt|e]; simpl; [|reflexivity].
  destruct (env_refresh_access_token env (trace s) rt) as [ti'|e]; simpl.
  - now destruct (getitem ti' "access_token").
  - now rewrite <- app_assoc.
Qed.

(** Whatever the session holds, the authenticator only ever adds
    refresh calls and log lines to the trace, at most one refresh, and
    leaves [session.permanent] alone. *)
Lemma get_spotify_client_frame s :
  exists new,
    trace (get_spotify_client env s).2 = trace s ++ new /\
    count is_api new = 0 /\ count is_exchange new = 0 /\
    count is_refresh new <= 1 /\
    permanent (get_spotify_client env s).2 = permanent s.
Proof.
  destruct (truthy (default PNone (session s !! "token_info"))) eqn:T.
  - destruct (session s !! "token_info") as [ti|] eqn:L; [|discriminate].
    simpl in T.
    destruct (env_is_token_expired env (trace s) ti) as [[|]|e] eqn:X.
    + rewrite (get_spotify_client_stale s ti L T X).
      destruct (getitem ti "refresh_token") as [rt|e].
      * destruct (env_refresh_access_token env (trace s) rt) as [ti'|e].
        -- exists [EvRefresh rt].
           destruct (getitem ti' "access_token"); frame_done.
        -- exists [EvRefresh rt; EvLog ("Token refresh failed: " +:+ str e)].
           frame_done.
      * exists [EvLog ("Token refresh failed: " +:+ str e)]. frame_done.
    + rewrite (get_spotify_client_live s ti L T X). exists [].
      rewrite app_nil_r.
      destruct (getitem ti "access_token"); frame_done.
    + exists []. rewrite app_nil_r.
      unfold get_spotify_client, bind, session_get, is_token_expired.
      rewrite L; simpl; rewrite T; simpl; rewrite X; simpl. frame_done.
  - rewrite (get_spotify_client_absent s T). exists [].
    rewrite app_nil_r. frame_done.
Qed.

(** C1. A session whose stored token, a dict with its [refresh_token],
    spotipy reports as expired: one call of [get_spotify_client] asks
    for a refresh exactly once.  When the
    refresh returns a token, that token replaces [session['token_info']]
    and the client returned carries its access token; when the refresh
    raises, [token_info] is removed from the session and the result is
    [None], the failed refresh being the only one of the call. *)
Theorem get_spotify_client_expired s token_info rt :
  session s !! "token_info" = Some token_info ->
  getitem token_info "refresh_token" = Ok rt ->
  env_is_token_expired env (trace s) token_info = Ok true ->
  count is_refresh (trace (get_spotify_client env s).2)
    = S (count is_refresh (trace s)) /\
  (forall token_info' tok,
     env_refresh_access_token env (trace s) rt = Ok token_info' ->
     getitem token_info' "access_token" = Ok tok ->
     get_spotify_client env s =
       (Ok (Some (MkSpotify tok)),
        MkState (<["token_info" := token_info']> (session s)) (permanent s)
                (trace s ++ [EvRefresh rt]))) /\
  (forall e,
     env_refresh_access_token env (trace s) rt = Raise e ->
     get_spotify_client env s =
       (Ok None,
        MkState (delete "token_info" (session s)) (permanent s)
                (trace s ++ [EvRefresh rt;
                             EvLog ("Token refresh failed: " +:+ str e)]))).
Proof.
  intros L R X.
  rewrite (get_spotify_client_stale s token_info L (getitem_truthy _ _ _ R) X).
  rewrite R. split; [|split].
  - destruct (env_refresh_access_token env (trace s) rt) as [ti'|e].
    + destruct (getitem ti' "access_token"); simpl;
        rewrite count_app; unfold count; simpl; lia.
    + simpl. rewrite count_app. unfold count. simpl. lia.
  - intros ti' tok Hr Ha. now rewrite Hr, Ha.
  - intros e Hr. now rewrite Hr.
Qed.

(** C2. A session whose stored token, a dict with its [access_token],
    spotipy reports as not expired: [get_spotify_client] returns a
    client for the stored access token,
    asks for no refresh, and leaves the request state as it found it, so
    that a second call right after the first sees the same session and
    gives the same client. *)
Theorem get_spotify_client_not_expired s token_info tok :
  session s !! "token_info" = Some token_info ->
  getitem token_info "access_token" = Ok tok ->
  env_is_token_expired env (trace s) token_info = Ok false ->
  get_spotify_client env s = (Ok (Some (MkSpotify tok)), s) /\
  count is_refresh (trace (get_spotify_client env s).2)
    = count is_refresh (trace s) /\
  (get_spotify_client env;; get_spotify_client env) s
    = (Ok (Some (MkSpotify tok)), s) /\
  session ((get_spotify_client env;; get_spotify_client env) s).2 !! "token_info"
    = Some token_info.
Proof.
  intros L A X.
  assert (E : get_spotify_client env s = (Ok (Some (MkSpotify tok)), s)).
  { rewrite (get_spotify_client_live s token_info L (getitem_truthy _ _ _ A) X).
    now rewrite A. }
  assert (E2 : (get_spotify_client env;; get_spotify_client env) s
               = (Ok (Some (MkSpotify tok)), s)).
  { now rewrite (bind_Ok _ _ _ _ _ E). }
  rewrite E2, E. auto.
Qed.


(** C6. A session without a [token_info] entry, the empty session among
    them: [get_spotify_client] returns [None] and the request state,
    session included, is the one it started from. *)
Theorem get_spotify_client_no_token s :
  session s !! "token_info" = None ->
  get_spotify_client env s = (Ok None, s) /\
  session (get_spotify_client env s).2 = session s.
Proof.
  intros L.
  assert (E : get_spotify_client env s = (Ok None, s)).
  { apply get_spotify_client_absent. now rewrite L. }
  now rewrite E.
Qed.

End Authenticator.

(** The expired token of [Sample.logged_in], with the provider up and
    with the provider down. *)
Lemma get_spotify_client_expired_witness :
  get_spotify_client (Sample.provider 4000 true true) Sample.logged_in
    = (Ok (Some (MkSpotify (PStr "new-access"))),
       MkState (<["token_info" := Sample.fresh_token]> (session Sample.logged_in))
               true [EvRefresh (PStr "refresh-1")]) /\
  get_spotify_client (Sample.provider 4000 false true) Sample.logged_in
    = (Ok None,
       MkState (delete "token_info" (session Sample.logged_in)) true
               [EvRefresh (PStr "refresh-1");
                EvLog "Token refresh failed: error: invalid_grant"]).
Proof.
  split.
  - destruct (get_spotify_client_expired (Sample.provider 4000 true true)
                Sample.logged_in Sample.stored_token (PStr "refresh-1"))
      as (_ & Hok & _); [reflexivity | reflexivity | reflexivity |].
    apply (Hok Sample.fresh_token (PStr "new-access")); reflexivity.
  - destruct (get_spotify_client_expired (Sample.provider 4000 false true)
                Sample.logged_in Sample.stored_token (PStr "refresh-1"))
      as (_ & _ & Hfail); [reflexivity | reflexivity | reflexivity |].
    apply (Hfail (Exn SpotifyOauthError "error: invalid_grant")); reflexivity.
Defined.

(** The same token an hour earlier on the provider's clock. *)
Lemma get_spotify_client_not_expired_witness :
  get_spotify_client (Sample.provider 100 true true) Sample.logged_in
    = (Ok (Some (MkSpotify (PStr "old-access"))), Sample.logged_in).
Proof.
  apply (get_spotify_client_not_expired (Sample.provider 100 true true)
           Sample.logged_in Sample.stored_token (PStr "old-access"));
    reflexivity.
Defined.



Lemma get_spotify_client_no_token_witness :
  get_spotify_client (Sample.provider 100 true true) Sample.anonymous
    = (Ok None, Sample.anonymous).
Proof.
  apply (get_spotify_client_no_token (Sample.provider 100 true true)
           Sample.anonymous).
  reflexivity.
Defined.

(** ** The routes *)

Lemma truthy_arg_blank x : truthy_arg x = false <-> blank x.
Proof.
  unfold blank. destruct x as [v|]; simpl.
  - rewrite negb_false_iff, String.eqb_eq. split.
    + intros ->. now right.
    + intros [H|H]; congruence.
  - split; auto.
Qed.

Lemma truthy_arg_Some v : v <> "" -> truthy_arg (Some v) = true.
Proof. intros N. simpl. now rewrite negb_true_iff, String.eqb_neq. Qed.

Section Routes.

Variable env : Env.

(** C7. [/api/user/playlists] and [/api/search], when
    [get_spotify_client] gives [None]: the answer is 401 with the JSON
    body [{"error": "Not authenticated"}], the state is the one the
    authenticator left, and the trace holds no Web API call that it did
    not hold before the request. *)
Theorem api_routes_not_authenticated s s' request_args :
  get_spotify_client env s = (Ok None, s') ->
  get_user_playlists env s
    = (Ok (MkResponse 401 (Json (PDict {["error" := PStr "Not authenticated"]}))),
       s') /\
  search_tracks env request_args s
    = (Ok (MkResponse 401 (Json (PDict {["error" := PStr "Not authenticated"]}))),
       s') /\
  count is_api (trace s') = count is_api (trace s).
Proof.
  intros G. split; [|split].
  - unfold get_user_playlists. now rewrite (bind_Ok _ _ _ _ _ G).
  - unfold search_tracks. now rewrite (bind_Ok _ _ _ _ _ G).
  - destruct (get_spotify_client_frame env s) as (new & Ht & Ha & _).
    rewrite G in Ht. simpl in Ht. rewrite Ht, count_app, Ha. lia.
Qed.

(** C8. [/api/search] with a client in hand and [q] missing or empty:
    the answer is 400 with the JSON body
    [{"error": "No search query provided"}], and no Web API call is
    made. *)
Theorem search_tracks_no_query s s' sp request_args :
  get_spotify_client env s = (Ok (Some sp), s') ->
  blank (request_args !! "q") ->
  search_tracks env request_args s
    = (Ok (MkResponse 400
             (Json (PDict {["error" := PStr "No search query provided"]}))),
       s') /\
  count is_api (trace s') = count is_api (trace s).
Proof.
  intros G B. split.
  - unfold search_tracks. rewrite (bind_Ok _ _ _ _ _ G).
    assert (Q : default "" (request_args !! "q") = "")
      by (destruct B as [-> | ->]; reflexivity).
    unfold try_except2, try_except. now rewrite Q.
  - destruct (get_spotify_client_frame env s) as (new & Ht & Ha & _).
    rewrite G in Ht. simpl in Ht. rewrite Ht, count_app, Ha. lia.
Qed.

(** C9. [/modify_playlist/<playlist_id>/<action>/<track_uri>] with a
    client in hand and an action other than "add" and "remove": the
    answer is the "Invalid action" page with status 200, and no Web API
    call is made. *)
Theorem modify_playlist_invalid_action s s' sp playlist_id action track_uri :
  get_spotify_client env s = (Ok (Some sp), s') ->
  action <> "add" ->
  action <> "remove" ->
  modify_playlist env playlist_id action track_uri s
    = (Ok (MkResponse 200
             (Html ("<h1>" +:+ "Invalid action" +:+
                    "</h1><p>Use 'add' or 'remove'</p><p><a href='/'>Back to Home</a></p>"))),
       s') /\
  count is_api (trace s') = count is_api (trace s).
Proof.
  intros G Na Nr. split.
  - unfold modify_playlist. rewrite (bind_Ok _ _ _ _ _ G).
    apply String.eqb_neq in Na, Nr.
    unfold try_except2, try_except. now rewrite Na, Nr.
  - destruct (get_spotify_client_frame env s) as (new & Ht & Ha & _).
    rewrite G in Ht. simpl in Ht. rewrite Ht, count_app, Ha. lia.
Qed.

(** C10. [/auth/status] with a client in hand whose [current_user] call
    raises a [SpotifyException], whatever its message: [token_info] is
    removed from the session and the answer is 200 with the JSON body
    [{"authenticated": false}]. *)
Theorem auth_status_upstream_failure s s' sp e :
  get_spotify_client env s = (Ok (Some sp), s') ->
  env_api env (trace s') (current_user sp) = Raise e ->
  cls e = SpotifyException ->
  auth_status env s
    = (Ok (MkResponse 200 (Json (PDict {["authenticated" := PBool false]}))),
       MkState (delete "token_info" (session s')) (permanent s')
               (trace s' ++ [EvApi (current_user sp);
                             EvLog ("Spotify API error: " +:+ str e)])) /\
  session (auth_status env s).2 !! "token_info" = None.
Proof.
  intros G A C.
  assert (E : auth_status env s
    = (Ok (MkResponse 200 (Json (PDict {["authenticated" := PBool false]}))),
       MkState (delete "token_info" (session s')) (permanent s')
               (trace s' ++ [EvApi (current_user sp);
                             EvLog ("Spotify API error: " +:+ str e)]))).
  { unfold auth_status. rewrite (bind_Ok _ _ _ _ _ G).
    unfold try_except_SpotifyException, try_except, bind, api,
      is_SpotifyException, logger_error, emit, session_pop, ret.
    rewrite A, C. simpl. now rewrite <- app_assoc. }
  rewrite E. split; [reflexivity|]. simpl. apply lookup_delete_eq.
Qed.

(** C4, as the code has it.  [/callback] looks at [error] first: when it
    is present and not empty the answer is a redirect to
    [/?error=access_denied] and no code is exchanged.  Otherwise, when
    [code] is absent or empty, the answer is a redirect to
    [/?error=no_code], again without an exchange.  Otherwise the code is
    exchanged exactly once: if a token comes back it is stored under
    [session['token_info']], the session is made permanent and the answer
    is a redirect to [/create_playlist]; if the exchange raises, the
    answer is a redirect to [/?error=callback_failed] and the session is
    untouched. *)
Theorem callback_outcomes s request_args :
  (forall err,
     request_args !! "error" = Some err -> err <> "" ->
     callback env request_args s
       = (Ok (MkResponse 302 (Location "/?error=access_denied")),
          MkState (session s) (permanent s)
                  (trace s ++ [EvLog ("OAuth error: " +:+ err)])) /\
     count is_exchange (trace (callback env request_args s).2)
       = count is_exchange (trace s)) /\
  (blank (request_args !! "error") -> blank (request_args !! "code") ->
     callback env request_args s
       = (Ok (MkResponse 302 (Location "/?error=no_code")),
          MkState (session s) (permanent s)
                  (trace s ++ [EvLog "No authorization code received"])) /\
     count is_exchange (trace (callback env request_args s).2)
       = count is_exchange (trace s)) /\
  (forall code,
     blank (request_args !! "error") ->
     request_args !! "code" = Some code -> code <> "" ->
     count is_exchange (trace (callback env request_args s).2)
       = S (count is_exchange (trace s)) /\
     (forall token_info,
        env_get_access_token env (trace s) (Some code) = Ok token_info ->
        callback env request_args s
          = (Ok (MkResponse 302 (Location "/create_playlist")),
             MkState (<["token_info" := token_info]> (session s)) true
                     (trace s ++ [EvExchange (Some code)]))) /\
     (forall e,
        env_get_access_token env (trace s) (Some code) = Raise e ->
        callback env request_args s
          = (Ok (MkResponse 302 (Location "/?error=callback_failed")),
             MkState (session s) (permanent s)
                     (trace s ++ [EvExchange (Some code);
                                  EvLog ("Callback error: " +:+ str e)])))).
Proof.
  split; [|split].
  - intros err E N.
    assert (C : callback env request_args s
       = (Ok (MkResponse 302 (Location "/?error=access_denied")),
          MkState (session s) (permanent s)
                  (trace s ++ [EvLog ("OAuth error: " +:+ err)]))).
    { unfold callback, try_except. rewrite E, (truthy_arg_Some err N).
      reflexivity. }
    rewrite C. split; [reflexivity|]. simpl. rewrite count_app. frame_done.
  - intros Be Bc.
    assert (C : callback env request_args s
       = (Ok (MkResponse 302 (Location "/?error=no_code")),
          MkState (session s) (permanent s)
                  (trace s ++ [EvLog "No authorization code received"]))).
    { unfold callback, try_except.
      apply truthy_arg_blank in Be, Bc. rewrite Be, Bc. reflexivity. }
    rewrite C. split; [reflexivity|]. simpl. rewrite count_app. frame_done.
  - intros code Be E N.
    assert (C : callback env request_args s
       = match env_get_access_token env (trace s) (Some code) with
         | Ok token_info =>
             (Ok (MkResponse 302 (Location "/create_playlist")),
              MkState (<["token_info" := token_info]> (session s)) true
                      (trace s ++ [EvExchange (Some code)]))
         | Raise e =>
             (Ok (MkResponse 302 (Location "/?error=callback_failed")),
              MkState (session s) (permanent s)
                      (trace s ++ [EvExchange (Some code);
                                   EvLog ("Callback error: " +:+ str e)]))
         end).
    { unfold callback, try_except.
      apply truthy_arg_blank in Be. rewrite Be, E, (truthy_arg_Some code N).
      unfold bind, get_access_token, session_set, session_set_permanent,
        logger_error, emit, ret. simpl.
      destruct (env_get_access_token env (trace s) (Some code)); simpl;
        [reflexivity|]. now rewrite <- app_assoc. }
    rewrite C. split; [|split].
    + destruct (env_get_access_token env (trace s) (Some code)); simpl;
        rewrite count_app; unfold count; simpl; lia.
    + now intros token_info ->.
    + now intros e ->.
Qed.

End Routes.

(** C4, as it is worded, at two requests on an empty session with the
    provider up.  [/callback?error=&code=ABC] carries an [error]
    parameter, yet the answer is not the redirect to
    [/?error=access_denied]: the code is exchanged and the answer is the
    redirect to [/create_playlist].  [/callback?code=] carries a [code]
    parameter and no [error], yet nothing is exchanged and the answer is
    the redirect to [/?error=no_code]. *)
Lemma callback_presence_counterexample :
  (is_Some (({["error" := ""; "code" := "ABC"]} : args) !! "error") /\
   (callback (Sample.provider 100 true true)
             {["error" := ""; "code" := "ABC"]} Sample.anonymous).1
     <> Ok (MkResponse 302 (Location "/?error=access_denied")) /\
   callback (Sample.provider 100 true true)
            {["error" := ""; "code" := "ABC"]} Sample.anonymous
     = (Ok (MkResponse 302 (Location "/create_playlist")),
        MkState {["token_info" := Sample.fresh_token]} true
                [EvExchange (Some "ABC")])) /\
  (({["code" := ""]} : args) !! "error" = None /\
   is_Some (({["code" := ""]} : args) !! "code") /\
   callback (Sample.provider 100 true true) {["code" := ""]} Sample.anonymous
     = (Ok (MkResponse 302 (Location "/?error=no_code")),
        MkState ∅ false [EvLog "No authorization code received"])).
Proof.
  split; [split; [|split] | split; [|split]].
  - exists "". reflexivity.
  - vm_compute. discriminate.
  - vm_compute. reflexivity.
  - reflexivity.
  - exists "". reflexivity.
  - vm_compute. reflexivity.
Qed.

Lemma callback_outcomes_witness :
  callback (Sample.provider 100 true true) {["error" := "access_denied"]}
           Sample.anonymous
    = (Ok (MkResponse 302 (Location "/?error=access_denied")),
       MkState ∅ false [EvLog "OAuth error: access_denied"]) /\
  callback (Sample.provider 100 true true) ∅ Sample.anonymous
    = (Ok (MkResponse 302 (Location "/?error=no_code")),
       MkState ∅ false [EvLog "No authorization code received"]) /\
  callback (Sample.provider 100 true true) {["code" := "ABC123"]}
           Sample.anonymous
    = (Ok (MkResponse 302 (Location "/create_playlist")),
       MkState (<["token_info" := Sample.fresh_token]> ∅) true
               [EvExchange (Some "ABC123")]) /\
  callback (Sample.provider 100 false true) {["code" := "ABC123"]}
           Sample.anonymous
    = (Ok (MkResponse 302 (Location "/?error=callback_failed")),
       MkState ∅ false
               [EvExchange (Some "ABC123");
                EvLog "Callback error: error: invalid_grant"]).
Proof.
  split; [|split; [|split]].
  - destruct (callback_outcomes (Sample.provider 100 true true)
                Sample.anonymous {["error" := "access_denied"]})
      as (H & _ & _).
    apply (H "access_denied"); [reflexivity | discriminate].
  - destruct (callback_outcomes (Sample.provider 100 true true)
                Sample.anonymous ∅) as (_ & H & _).
    apply H; left; reflexivity.
  - destruct (callback_outcomes (Sample.provider 100 true true)
                Sample.anonymous {["code" := "ABC123"]}) as (_ & _ & H).
    destruct (H "ABC123") as (_ & Hok & _);
      [left; reflexivity | reflexivity | discriminate |].
    apply (Hok Sample.fresh_token). reflexivity.
  - destruct (callback_outcomes (Sample.provider 100 false true)
                Sample.anonymous {["code" := "ABC123"]}) as (_ & _ & H).
    destruct (H "ABC123") as (_ & _ & Hfail);
      [left; reflexivity | reflexivity | discriminate |].
    apply (Hfail (Exn SpotifyOauthError "error: invalid_grant")). reflexivity.
Defined.

Lemma api_routes_not_authenticated_witness :
  get_user_playlists (Sample.provider 100 true true) Sample.anonymous
    = (Ok (MkResponse 401 (Json (PDict {["error" := PStr "Not authenticated"]}))),
       Sample.anonymous) /\
  search_tracks (Sample.provider 100 true true) {["q" := "test"]}
                Sample.anonymous
    = (Ok (MkResponse 401 (Json (PDict {["error" := PStr "Not authenticated"]}))),
       Sample.anonymous) /\
  count is_api (trace Sample.anonymous) = count is_api (trace Sample.anonymous).
Proof.
  apply (api_routes_not_authenticated (Sample.provider 100 true true)
           Sample.anonymous Sample.anonymous {["q" := "test"]}).
  reflexivity.
Defined.

Lemma search_tracks_no_query_witness :
  search_tracks (Sample.provider 100 true true) {["q" := ""]} Sample.logged_in
    = (Ok (MkResponse 400
             (Json (PDict {["error" := PStr "No search query provided"]}))),
       Sample.logged_in) /\
  count is_api (trace Sample.logged_in) = count is_api (trace Sample.logged_in).
Proof.
  apply (search_tracks_no_query (Sample.provider 100 true true)
           Sample.logged_in Sample.logged_in (MkSpotify (PStr "old-access"))
           {["q" := ""]}).
  - reflexivity.
  - right. reflexivity.
Defined.

Lemma modify_playlist_invalid_action_witness :
  modify_playlist (Sample.provider 100 true true) "p1" "delete"
                  "spotify:track:1" Sample.logged_in
    = (Ok (MkResponse 200
             (Html "<h1>Invalid action</h1><p>Use 'add' or 'remove'</p><p><a href='/'>Back to Home</a></p>")),
       Sample.logged_in) /\
  count is_api (trace Sample.logged_in) = count is_api (trace Sample.logged_in).
Proof.
  apply (modify_playlist_invalid_action (Sample.provider 100 true true)
           Sample.logged_in Sample.logged_in (MkSpotify (PStr "old-access"))
           "p1" "delete" "spotify:track:1").
  - reflexivity.
  - discriminate.
  - discriminate.
Defined.

(** A rate-limited Web API (status 429) behind a valid token. *)
Lemma auth_status_upstream_failure_witness :
  auth_status (Sample.provider 100 true false) Sample.logged_in
    = (Ok (MkResponse 200 (Json (PDict {["authenticated" := PBool false]}))),
       MkState (delete "token_info" (session Sample.logged_in)) true
               [EvApi (current_user (MkSpotify (PStr "old-access")));
                EvLog "Spotify API error: http status: 429"]) /\
  session (auth_status (Sample.provider 100 true false) Sample.logged_in).2
    !! "token_info" = None.
Proof.
  apply (auth_status_upstream_failure (Sample.provider 100 true false)
           Sample.logged_in Sample.logged_in (MkSpotify (PStr "old-access"))
           (Exn SpotifyException "http status: 429")); reflexivity.
Defined.

(** ** More on the session authenticator *)

Section AuthenticatorPaths.

Variable env : Env.

Lemma get_spotify_client_expiry_raises s token_info e :
  session s !! "token_info" = Some token_info ->
  truthy token_info = true ->
  env_is_token_expired env (trace s) token_info = Raise e ->
  get_spotify_client env s = (Raise e, s).
Proof.
  intros L T X.
  unfold get_spotify_client, bind, session_get, is_token_expired.
  rewrite L; simpl; rewrite T; simpl; rewrite X; reflexivity.
Qed.

Lemma get_spotify_client_path s : gsc_path env s (get_spotify_client env s).
Proof.
  destruct (truthy (default PNone (session s !! "token_info"))) eqn:T.
  - destruct (session s !! "token_info") as [ti|] eqn:L; [|discriminate].
    simpl in T.
    destruct (env_is_token_expired env (trace s) ti) as [[|]|e] eqn:X.
    + rewrite (get_spotify_client_stale env s ti L T X).
      destruct (getitem ti "refresh_token") as [rt|e] eqn:R.
      * destruct (env_refresh_access_token env (trace s) rt) as [ti'|e] eqn:F.
        -- cbv zeta.
           replace (match getitem ti' "access_token" with
                    | Ok tok => (Ok (Some (MkSpotify tok)), _)
                    | Raise e => (Raise e, _)
                    end)
             with (match getitem ti' "access_token" with
                   | Ok tok => Ok (Some (MkSpotify tok))
                   | Raise e => Raise e
                   end,
                   MkState (<["token_info" := ti']> (session s)) (permanent s)
                           (trace s ++ [EvRefresh rt]))
             by (destruct (getitem ti' "access_token"); reflexivity).
           eapply gsc_refreshed; eauto.
        -- eapply gsc_refresh_failed; eauto.
      * eapply gsc_no_refresh_token; eauto.
    + rewrite (get_spotify_client_live env s ti L T X).
      replace (match getitem ti "access_token" with
               | Ok tok => (Ok (Some (MkSpotify tok)), s)
               | Raise e => (Raise e, s)
               end)
        with (match getitem ti "access_token" with
              | Ok tok => Ok (Some (MkSpotify tok))
              | Raise e => Raise e
              end, s)
        by (destruct (getitem ti "access_token"); reflexivity).
      eapply gsc_live; eauto.
    + rewrite (get_spotify_client_expiry_raises s ti e L T X).
      eapply gsc_expiry_raises; eauto.
  - rewrite (get_spotify_client_absent env s T). now constructor.
Qed.

End AuthenticatorPaths.

Section AuthenticatorMore.

Variable env : Env.

Ltac gsc_cases s G :=
  let P := fresh "P" in
  pose proof (get_spotify_client_path env s) as P;
  rewrite G in P; inversion P; subst; clear P.

(** X1. An expired token stored without [refresh_token]: the lookup of
    line 52 raises inside the [try], so the token is removed from the
    session, the result is [None], one line is logged and the token
    endpoint is not contacted. *)
Theorem get_spotify_client_missing_refresh_token s token_info e :
  session s !! "token_info" = Some token_info ->
  truthy token_info = true ->
  env_is_token_expired env (trace s) token_info = Ok true ->
  getitem token_info "refresh_token" = Raise e ->
  get_spotify_client env s
    = (Ok None,
       MkState (delete "token_info" (session s)) (permanent s)
               (trace s ++ [EvLog ("Token refresh failed: " +:+ str e)])) /\
  count is_refresh (trace (get_spotify_client env s).2)
    = count is_refresh (trace s).
Proof.
  intros L T X R.
  rewrite (get_spotify_client_stale env s token_info L T X), R.
  split; [reflexivity|]. simpl. rewrite count_app. unfold count. simpl. lia.
Qed.

(** X2. Whatever happens, [get_spotify_client] leaves every session key
    other than [token_info], and [session.permanent], as they were. *)
Theorem get_spotify_client_keeps_other_keys s k :
  k <> "token_info" ->
  session (get_spotify_client env s).2 !! k = session s !! k /\
  permanent (get_spotify_client env s).2 = permanent s.
Proof.
  intros N.
  destruct (get_spotify_client env s) as [r s'] eqn:G.
  gsc_cases s G; simpl; split; try reflexivity.
  - now apply lookup_delete_ne.
  - now apply lookup_delete_ne.
  - now apply lookup_insert_ne.
Qed.

(** X3. When [get_spotify_client] returns a client, the session holds,
    after the call, the token whose [access_token] the client carries. *)
Theorem get_spotify_client_client_of_session s sp s' :
  get_spotify_client env s = (Ok (Some sp), s') ->
  exists token_info,
    session s' !! "token_info" = Some token_info /\
    getitem token_info "access_token" = Ok (auth sp).
Proof.
  intros G. gsc_cases s G.
  - exists token_info. split; [assumption|].
    destruct (getitem token_info "access_token"); now simplify_eq.
  - exists token_info'. split; [apply lookup_insert_eq|].
    destruct (getitem token_info' "access_token"); now simplify_eq.
Qed.

(** X4. When [get_spotify_client] returns [None], the session it leaves
    holds no usable token, and a further call returns [None] again
    without touching anything: a failed refresh is not tried again. *)
Theorem get_spotify_client_none_is_final s s' :
  get_spotify_client env s = (Ok None, s') ->
  truthy (default PNone (session s' !! "token_info")) = false /\
  get_spotify_client env s' = (Ok None, s').
Proof.
  intros G.
  assert (T : truthy (default PNone (session s' !! "token_info")) = false).
  { gsc_cases s G; simpl.
    - assumption.
    - destruct (getitem token_info "access_token"); discriminate.
    - now rewrite lookup_delete_eq.
    - now rewrite lookup_delete_eq.
    - destruct (getitem token_info' "access_token"); discriminate. }
  split; [assumption|]. now apply get_spotify_client_absent.
Qed.

(** X5. [get_spotify_client] raises in two situations only: spotipy's
    expiry check raised, and then nothing has changed; or the token that
    the session holds after the call, stored or just refreshed, has no
    readable [access_token].  An exception of the refresh itself never
    comes out. *)
Theorem get_spotify_client_raise_causes s e s' :
  get_spotify_client env s = (Raise e, s') ->
  (s' = s /\
   exists token_info,
     session s !! "token_info" = Some token_info /\
     env_is_token_expired env (trace s) token_info = Raise e) \/
  (exists token_info,
     session s' !! "token_info" = Some token_info /\
     getitem token_info "access_token" = Raise e).
Proof.
  intros G. gsc_cases s G.
  - left. eauto.
  - right. exists token_info. split; [assumption|].
    destruct (getitem token_info "access_token"); now simplify_eq.
  - right. exists token_info'. split; [apply lookup_insert_eq|].
    destruct (getitem token_info' "access_token"); now simplify_eq.
Qed.

(** X6. When [get_spotify_client] has returned a client and spotipy
    reports the token now in the session as not expired, a further call
    returns the same client and changes nothing: within a request the
    token is refreshed at most once. *)
Theorem get_spotify_client_again s sp s' :
  get_spotify_client env s = (Ok (Some sp), s') ->
  (forall token_info,
     session s' !! "token_info" = Some token_info ->
     env_is_token_expired env (trace s') token_info = Ok false) ->
  get_spotify_client env s' = (Ok (Some sp), s').
Proof.
  intros G V.
  assert (H : exists ti, session s' !! "token_info" = Some ti /\
                         getitem ti "access_token" = Ok (auth sp)).
  { gsc_cases s G.
    - exists token_info. split; [assumption|].
      destruct (getitem token_info "access_token"); now simplify_eq.
    - exists token_info'. split; [apply lookup_insert_eq|].
      destruct (getitem token_info' "access_token"); now simplify_eq. }
  destruct H as (ti & L & A).
  rewrite (get_spotify_client_live env s' ti L (getitem_truthy _ _ _ A) (V ti L)).
  rewrite A. now destruct sp.
Qed.

End AuthenticatorMore.

Lemma get_spotify_client_missing_refresh_token_witness :
  get_spotify_client (Sample.provider 4000 true true)
                     SampleSessions.no_refresh_token
    = (Ok None,
       MkState (delete "token_info" (session SampleSessions.no_refresh_token))
               true [EvLog "Token refresh failed: 'refresh_token'"]).
Proof.
  apply (get_spotify_client_missing_refresh_token
           (Sample.provider 4000 true true) SampleSessions.no_refresh_token
           (PDict (list_to_map
              [("access_token", PStr "old-access"); ("expires_at", PInt 3600)]))
           (Exn KeyError "'refresh_token'")); reflexivity.
Defined.

Lemma get_spotify_client_keeps_other_keys_witness :
  session (get_spotify_client (Sample.provider 4000 true true)
             SampleSessions.no_refresh_token).2 !! "theme"
    = Some (PStr "dark").
Proof.
  destruct (get_spotify_client_keeps_other_keys
              (Sample.provider 4000 true true)
              SampleSessions.no_refresh_token "theme") as [H _];
    [discriminate|].
  rewrite H. reflexivity.
Defined.

Lemma get_spotify_client_client_of_session_witness :
  exists token_info,
    <["token_info" := Sample.fresh_token]> (session Sample.logged_in)
      !! "token_info" = Some token_info /\
    getitem token_info "access_token" = Ok (PStr "new-access").
Proof.
  exact (get_spotify_client_client_of_session
           (Sample.provider 4000 true true) Sample.logged_in
           (MkSpotify (PStr "new-access"))
           (MkState (<["token_info" := Sample.fresh_token]>
                       (session Sample.logged_in))
                    true [EvRefresh (PStr "refresh-1")])
           eq_refl).
Defined.

Lemma get_spotify_client_none_is_final_witness :
  get_spotify_client (Sample.provider 4000 false true)
    (MkState (delete "token_info" (session Sample.logged_in)) true
             [EvRefresh (PStr "refresh-1");
              EvLog "Token refresh failed: error: invalid_grant"])
  = (Ok None,
     MkState (delete "token_info" (session Sample.logged_in)) true
             [EvRefresh (PStr "refresh-1");
              EvLog "Token refresh failed: error: invalid_grant"]).
Proof.
  apply (get_spotify_client_none_is_final
           (Sample.provider 4000 false true) Sample.logged_in).
  reflexivity.
Defined.

Lemma get_spotify_client_raise_causes_witness :
  (SampleSessions.no_access_token = SampleSessions.no_access_token /\
   exists token_info,
     session SampleSessions.no_access_token !! "token_info" = Some token_info /\
     env_is_token_expired (Sample.provider 100 true true)
       (trace SampleSessions.no_access_token) token_info
     = Raise (Exn KeyError "'access_token'")) \/
  (exists token_info,
     session SampleSessions.no_access_token !! "token_info" = Some token_info /\
     getitem token_info "access_token" = Raise (Exn KeyError "'access_token'")).
Proof.
  apply (get_spotify_client_raise_causes (Sample.provider 100 true true)
           SampleSessions.no_access_token).
  reflexivity.
Defined.

(** The refreshed token of [Sample.provider] lapses at 7200. *)
Lemma get_spotify_client_again_witness :
  get_spotify_client (Sample.provider 4000 true true)
    (MkState (<["token_info" := Sample.fresh_token]> (session Sample.logged_in))
             true [EvRefresh (PStr "refresh-1")])
  = (Ok (Some (MkSpotify (PStr "new-access"))),
     MkState (<["token_info" := Sample.fresh_token]> (session Sample.logged_in))
             true [EvRefresh (PStr "refresh-1")]).
Proof.
  apply (get_spotify_client_again (Sample.provider 4000 true true)
           Sample.logged_in).
  - reflexivity.
  - intros token_info L. simpl in L. rewrite lookup_insert_eq in L.
    injection L as <-. reflexivity.
Defined.

(** ** Login and logout *)

Section LoginLogout.

Variable env : Env.

(** [callback], computed. *)
Lemma callback_eq s request_args :
  callback env request_args s =
    if truthy_arg (request_args !! "error") then
      (Ok (redirect "/?error=access_denied"),
       MkState (session s) (permanent s)
               (trace s ++ [EvLog ("OAuth error: "
                                   +:+ fmt_arg (request_args !! "error"))]))
    else if negb (truthy_arg (request_args !! "code")) then
      (Ok (redirect "/?error=no_code"),
       MkState (session s) (permanent s)
               (trace s ++ [EvLog "No authorization code received"]))
    else
      match env_get_access_token env (trace s) (request_args !! "code") with
      | Ok token_info =>
          (Ok (redirect "/create_playlist"),
           MkState (<["token_info" := token_info]> (session s)) true
                   (trace s ++ [EvExchange (request_args !! "code")]))
      | Raise e =>
          (Ok (redirect "/?error=callback_failed"),
           MkState (session s) (permanent s)
                   (trace s ++ [EvExchange (request_args !! "code");
                                EvLog ("Callback error: " +:+ str e)]))
      end.
Proof.
  unfold callback, try_except.
  destruct (truthy_arg (request_args !! "error")); [reflexivity|].
  destruct (truthy_arg (request_args !! "code")); [|reflexivity].
  unfold bind, get_access_token, session_set, session_set_permanent,
    logger_error, emit, ret. simpl.
  destruct (env_get_access_token env (trace s) (request_args !! "code"));
    simpl; [reflexivity|]. now rewrite <- app_assoc.
Qed.

(** X7. [/callback] never raises and never answers anything but a
    redirect to one of four places; unless that place is
    [/create_playlist], the session and [session.permanent] are as before
    the request, so a failed login does not disturb an earlier one.  It
    makes no Web API call and asks for no refresh. *)
Theorem callback_always_redirects s request_args :
  exists url s',
    callback env request_args s = (Ok (MkResponse 302 (Location url)), s') /\
    (url = "/?error=access_denied" \/ url = "/?error=no_code" \/
     url = "/create_playlist" \/ url = "/?error=callback_failed") /\
    (url <> "/create_playlist" ->
     session s' = session s /\ permanent s' = permanent s) /\
    count is_api (trace s') = count is_api (trace s) /\
    count is_refresh (trace s') = count is_refresh (trace s).
Proof.
  rewrite callback_eq.
  destruct (truthy_arg (request_args !! "error")).
  { do 2 eexists. split; [reflexivity|].
    split; [auto|]. split; [auto|]. simpl. rewrite !count_app. frame_done. }
  destruct (truthy_arg (request_args !! "code")); simpl.
  - destruct (env_get_access_token env (trace s) (request_args !! "code")).
    + do 2 eexists. split; [reflexivity|].
      split; [auto|]. split; [congruence|]. simpl. rewrite !count_app.
      frame_done.
    + do 2 eexists. split; [reflexivity|].
      split; [auto|]. split; [auto|]. simpl. rewrite !count_app. frame_done.
  - do 2 eexists. split; [reflexivity|].
    split; [auto|]. split; [auto|]. simpl. rewrite !count_app. frame_done.
Qed.

(** X8. Login, then use: when [/callback] has exchanged a code for a
    token that carries an [access_token] and that spotipy reports as not
    expired, [get_spotify_client] called next returns a client bound to
    that access token, and asks for no refresh. *)
Theorem callback_then_client s request_args code token_info tok :
  blank (request_args !! "error") ->
  request_args !! "code" = Some code -> code <> "" ->
  env_get_access_token env (trace s) (Some code) = Ok token_info ->
  getitem token_info "access_token" = Ok tok ->
  env_is_token_expired env (trace s ++ [EvExchange (Some code)]) token_info
    = Ok false ->
  (callback env request_args;; get_spotify_client env) s
    = (Ok (Some (MkSpotify tok)),
       MkState (<["token_info" := token_info]> (session s)) true
               (trace s ++ [EvExchange (Some code)])).
Proof.
  intros Be C N X A V.
  unfold bind. rewrite callback_eq.
  apply truthy_arg_blank in Be. rewrite Be, C, (truthy_arg_Some code N).
  simpl. rewrite X.
  rewrite (get_spotify_client_live env _ token_info);
    [now rewrite A | apply lookup_insert_eq
     | apply (getitem_truthy _ _ _ A) | exact V].
Qed.

(** X9. [/auth/logout] answers with a redirect to [/] and leaves an empty,
    non-permanent session whatever it held; nothing is sent to Spotify;
    and [get_spotify_client] called next returns [None] without asking
    for a refresh. *)
Theorem logout_clears_session s :
  logout s = (Ok (MkResponse 302 (Location "/")), MkState ∅ false (trace s)) /\
  (logout;; get_spotify_client env) s
    = (Ok None, MkState ∅ false (trace s)).
Proof.
  split; [reflexivity|].
  unfold bind, logout, session_clear, ret. simpl.
  now apply get_spotify_client_absent.
Qed.

End LoginLogout.

Lemma callback_then_client_witness :
  (callback (Sample.provider 100 true true) {["code" := "ABC123"]};;
   get_spotify_client (Sample.provider 100 true true)) Sample.anonymous
  = (Ok (Some (MkSpotify (PStr "new-access"))),
     MkState (<["token_info" := Sample.fresh_token]> (session Sample.anonymous))
             true (trace Sample.anonymous ++ [EvExchange (Some "ABC123")])).
Proof.
  apply (callback_then_client (Sample.provider 100 true true)
           Sample.anonymous {["code" := "ABC123"]} "ABC123"
           Sample.fresh_token (PStr "new-access"));
    [left; reflexivity | reflexivity | discriminate
     | reflexivity | reflexivity | reflexivity].
Defined.

Lemma callback_always_redirects_witness :
  exists url s',
    callback (Sample.provider 100 false true) {["code" := "ABC123"]}
             Sample.logged_in
      = (Ok (MkResponse 302 (Location url)), s') /\
    (url = "/?error=access_denied" \/ url = "/?error=no_code" \/
     url = "/create_playlist" \/ url = "/?error=callback_failed") /\
    (url <> "/create_playlist" ->
     session s' = session Sample.logged_in /\
     permanent s' = permanent Sample.logged_in) /\
    count is_api (trace s') = count is_api (trace Sample.logged_in) /\
    count is_refresh (trace s') = count is_refresh (trace Sample.logged_in).
Proof.
  exact (callback_always_redirects (Sample.provider 100 false true)
           Sample.logged_in {["code" := "ABC123"]}).
Defined.

(** ** The status and playlist routes, all cases *)

Section StatusAndPlaylist.

Variable env : Env.

Lemma frame_api_count s o s' :
  get_spotify_client env s = (o, s') ->
  count is_api (trace s') = count is_api (trace s).
Proof.
  intros G.
  destruct (get_spotify_client_frame env s) as (new & Ht & Ha & _).
  rewrite G in Ht. simpl in Ht. rewrite Ht, count_app, Ha. lia.
Qed.

(** X10. [/auth/status] catches [SpotifyException] only.  With a client
    in hand, an exception of another class from [current_user] (a
    connection error, say) comes out of the view, and so does the
    [KeyError] or [TypeError] of a user object without an [id]; in
    both cases the token stays in the session and nothing is logged. *)
Theorem auth_status_lets_other_exceptions_out s s' sp :
  get_spotify_client env s = (Ok (Some sp), s') ->
  (forall e,
     env_api env (trace s') (current_user sp) = Raise e ->
     cls e <> SpotifyException ->
     auth_status env s
       = (Raise e,
          MkState (session s') (permanent s')
                  (trace s' ++ [EvApi (current_user sp)]))) /\
  (forall user e,
     env_api env (trace s') (current_user sp) = Ok user ->
     getitem user "id" = Raise e ->
     auth_status env s
       = (Raise e,
          MkState (session s') (permanent s')
                  (trace s' ++ [EvApi (current_user sp)]))).
Proof.
  intros G. split.
  - intros e A C. unfold auth_status. rewrite (bind_Ok _ _ _ _ _ G).
    unfold try_except_SpotifyException, try_except, bind, api,
      is_SpotifyException, raise.
    rewrite A. simpl. now destruct (cls e).
  - intros user e A I. unfold auth_status. rewrite (bind_Ok _ _ _ _ _ G).
    unfold try_except_SpotifyException, try_except, bind, api, lift,
      is_SpotifyException, raise.
    rewrite A. simpl. rewrite I. simpl.
    destruct user; simpl in I; try (injection I as <-; reflexivity).
    destruct (d !! "id"); [discriminate|]. injection I as <-. reflexivity.
Qed.

(** X11. [/auth/status] with a client in hand and a user object that has
    an [id]: the answer is 200 with [authenticated] true and the three
    fields [id], [display_name] and [email] of the user, the last two
    [None] when the user object lacks them; one Web API call is made and
    the session is left alone. *)
Theorem auth_status_authenticated s s' sp d id :
  get_spotify_client env s = (Ok (Some sp), s') ->
  env_api env (trace s') (current_user sp) = Ok (PDict d) ->
  d !! "id" = Some id ->
  auth_status env s
    = (Ok (MkResponse 200 (Json (PDict (list_to_map
         [("authenticated", PBool true);
          ("user", PDict (list_to_map
             [("id", id);
              ("display_name", default PNone (d !! "display_name"));
              ("email", default PNone (d !! "email"))]))])))),
       MkState (session s') (permanent s')
               (trace s' ++ [EvApi (current_user sp)])).
Proof.
  intros G A I. unfold auth_status. rewrite (bind_Ok _ _ _ _ _ G).
  unfold try_except_SpotifyException, try_except, bind, api, lift, ret.
  rewrite A. simpl. now rewrite I.
Qed.

(** X12. [/auth/status] without a client: the answer is 200 with
    [authenticated] false, and no Web API call is made. *)
Theorem auth_status_not_authenticated s s' :
  get_spotify_client env s = (Ok None, s') ->
  auth_status env s
    = (Ok (MkResponse 200 (Json (PDict {["authenticated" := PBool false]}))),
       s') /\
  count is_api (trace s') = count is_api (trace s).
Proof.
  intros G. split; [|exact (frame_api_count _ _ _ G)].
  unfold auth_status. now rewrite (bind_Ok _ _ _ _ _ G).
Qed.

(** X13. [/modify_playlist] with a client in hand, when the Web API call
    succeeds: "add" makes the one call [playlist_add_items] and "remove"
    the one call [playlist_remove_all_occurrences_of_items], each with the
    playlist id and the single track URI of the URL, and the page names
    that URI. *)
Theorem modify_playlist_add_remove s s' sp playlist_id track_uri :
  get_spotify_client env s = (Ok (Some sp), s') ->
  (forall v,
     env_api env (trace s') (playlist_add_items sp playlist_id [track_uri])
       = Ok v ->
     modify_playlist env playlist_id "add" track_uri s
       = (Ok (MkResponse 200 (Html ("<h1>Success!</h1><p>Added " +:+ track_uri
                +:+ "</p><p><a href='/'>Back to Home</a></p>"))),
          MkState (session s') (permanent s')
                  (trace s' ++ [EvApi (playlist_add_items sp playlist_id
                                                          [track_uri])]))) /\
  (forall v,
     env_api env (trace s')
       (playlist_remove_all_occurrences_of_items sp playlist_id [track_uri])
       = Ok v ->
     modify_playlist env playlist_id "remove" track_uri s
       = (Ok (MkResponse 200 (Html ("<h1>Success!</h1><p>Removed " +:+ track_uri
                +:+ "</p><p><a href='/'>Back to Home</a></p>"))),
          MkState (session s') (permanent s')
                  (trace s' ++ [EvApi (playlist_remove_all_occurrences_of_items
                                         sp playlist_id [track_uri])]))).
Proof.
  intros G. split; intros v A; unfold modify_playlist;
    rewrite (bind_Ok _ _ _ _ _ G); simpl;
    unfold try_except2, try_except, bind, api, ret; now rewrite A.
Qed.

(** X14. [/modify_playlist] never raises once the authenticator has
    answered.  Without a client the answer is a redirect to [/]; with a
    client it is always an HTML page with status 200, also when the Web
    API call fails, with a [SpotifyException] or otherwise.  The session
    is left as the authenticator left it and at most one Web API call is
    made. *)
Theorem modify_playlist_always_answers s o s' playlist_id action track_uri :
  get_spotify_client env s = (Ok o, s') ->
  exists r s'',
    modify_playlist env playlist_id action track_uri s = (Ok r, s'') /\
    match o with
    | None => r = MkResponse 302 (Location "/") /\ s'' = s'
    | Some _ => exists body, r = MkResponse 200 (Html body)
    end /\
    session s'' = session s' /\
    count is_api (trace s'') <= count is_api (trace s) + 1.
Proof.
  intros G. pose proof (frame_api_count _ _ _ G) as F.
  unfold modify_playlist. rewrite (bind_Ok _ _ _ _ _ G).
  destruct o as [sp|].
  - unfold try_except2, try_except.
    destruct (String.eqb action "add").
    + unfold bind, api, ret, logger_error, emit, html.
      destruct (env_api env (trace s') _) as [v|e]; simpl.
      * do 2 eexists. split; [reflexivity|]. split; [eauto|].
        split; [reflexivity|]. simpl. rewrite count_app, F. frame_done.
      * destruct (is_SpotifyException e); simpl;
          (do 2 eexists; split; [reflexivity|]; split; [eauto|];
           split; [reflexivity|]; simpl; rewrite !count_app, F; frame_done).
    + destruct (String.eqb action "remove").
      * unfold bind, api, ret, logger_error, emit, html.
        destruct (env_api env (trace s') _) as [v|e]; simpl.
        -- do 2 eexists. split; [reflexivity|]. split; [eauto|].
           split; [reflexivity|]. simpl. rewrite count_app, F. frame_done.
        -- destruct (is_SpotifyException e); simpl;
             (do 2 eexists; split; [reflexivity|]; split; [eauto|];
              split; [reflexivity|]; simpl; rewrite !count_app, F; frame_done).
      * unfold ret, html. do 2 eexists. split; [reflexivity|].
        split; [eauto|]. split; [reflexivity|]. lia.
  - unfold ret, redirect. do 2 eexists. split; [reflexivity|].
    split; [auto|]. split; [reflexivity|]. lia.
Qed.

End StatusAndPlaylist.

Lemma auth_status_lets_other_exceptions_out_witness :
  auth_status SampleSessions.offline Sample.logged_in
    = (Raise (Exn OtherException "Connection aborted"),
       MkState (session Sample.logged_in) true
               [EvApi (current_user (MkSpotify (PStr "old-access")))]) /\
  auth_status SampleSessions.nameless Sample.logged_in
    = (Raise (Exn KeyError "'id'"),
       MkState (session Sample.logged_in) true
               [EvApi (current_user (MkSpotify (PStr "old-access")))]).
Proof.
  split.
  - destruct (auth_status_lets_other_exceptions_out SampleSessions.offline
                Sample.logged_in Sample.logged_in
                (MkSpotify (PStr "old-access")) eq_refl) as [H _].
    apply (H (Exn OtherException "Connection aborted"));
      [reflexivity | discriminate].
  - destruct (auth_status_lets_other_exceptions_out SampleSessions.nameless
                Sample.logged_in Sample.logged_in
                (MkSpotify (PStr "old-access")) eq_refl) as [_ H].
    apply (H (PDict {["display_name" := PStr "Ann"]}) (Exn KeyError "'id'"));
      reflexivity.
Defined.

Lemma auth_status_authenticated_witness :
  auth_status (Sample.provider 100 true true) Sample.logged_in
    = (Ok (MkResponse 200 (Json (PDict (list_to_map
         [("authenticated", PBool true);
          ("user", PDict (list_to_map
             [("id", PStr "u1"); ("display_name", PStr "Ann");
              ("email", PNone)]))])))),
       MkState (session Sample.logged_in) true
               [EvApi (current_user (MkSpotify (PStr "old-access")))]).
Proof.
  exact (auth_status_authenticated (Sample.provider 100 true true)
           Sample.logged_in Sample.logged_in (MkSpotify (PStr "old-access"))
           (list_to_map [("id", PStr "u1"); ("display_name", PStr "Ann")])
           (PStr "u1") eq_refl eq_refl eq_refl).
Defined.

Lemma auth_status_not_authenticated_witness :
  auth_status (Sample.provider 100 true true) Sample.anonymous
    = (Ok (MkResponse 200 (Json (PDict {["authenticated" := PBool false]}))),
       Sample.anonymous).
Proof.
  apply (auth_status_not_authenticated (Sample.provider 100 true true)
           Sample.anonymous Sample.anonymous).
  reflexivity.
Defined.

Lemma modify_playlist_add_remove_witness :
  modify_playlist (Sample.provider 100 true true) "p1" "add"
                  "spotify:track:1" Sample.logged_in
    = (Ok (MkResponse 200 (Html
         "<h1>Success!</h1><p>Added spotify:track:1</p><p><a href='/'>Back to Home</a></p>")),
       MkState (session Sample.logged_in) true
               [EvApi (playlist_add_items (MkSpotify (PStr "old-access")) "p1"
                                          ["spotify:track:1"])]) /\
  modify_playlist (Sample.provider 100 true true) "p1" "remove"
                  "spotify:track:1" Sample.logged_in
    = (Ok (MkResponse 200 (Html
         "<h1>Success!</h1><p>Removed spotify:track:1</p><p><a href='/'>Back to Home</a></p>")),
       MkState (session Sample.logged_in) true
               [EvApi (playlist_remove_all_occurrences_of_items
                         (MkSpotify (PStr "old-access")) "p1"
                         ["spotify:track:1"])]).
Proof.
  destruct (modify_playlist_add_remove (Sample.provider 100 true true)
              Sample.logged_in Sample.logged_in (MkSpotify (PStr "old-access"))
              "p1" "spotify:track:1" eq_refl) as [Hadd Hremove].
  split.
  - exact (Hadd PNone eq_refl).
  - exact (Hremove PNone eq_refl).
Defined.

(** A rate-limited Web API: the page is an error page, with status 200. *)
Lemma modify_playlist_always_answers_witness :
  exists r s'',
    modify_playlist (Sample.provider 100 true false) "p1" "add"
                    "spotify:track:1" Sample.logged_in = (Ok r, s'') /\
    (exists body, r = MkResponse 200 (Html body)) /\
    session s'' = session Sample.logged_in /\
    count is_api (trace s'') <= count is_api (trace Sample.logged_in) + 1.
Proof.
  exact (modify_playlist_always_answers (Sample.provider 100 true false)
           Sample.logged_in (Some (MkSpotify (PStr "old-access")))
           Sample.logged_in "p1" "add" "spotify:track:1" eq_refl).
Defined.

(** ** The API routes, all cases *)

Lemma bind_lift {A B} (r : res A) (k : A -> M B) s :
  bind (lift r) k s = match r with Ok a => k a s | Raise e => (Raise e, s) end.
Proof. unfold bind, lift. now destruct r. Qed.

Lemma comprehension_pure {A B} (f : A -> M B) (g : A -> res B) l s :
  (forall x s, f x s = (g x, s)) ->
  comprehension f l s = (mapM_res g l, s).
Proof.
  intros H. revert s. induction l as [|x l IH]; intros s; simpl; [reflexivity|].
  unfold bind at 1. rewrite H. destruct (g x) as [y|e]; simpl; [|reflexivity].
  unfold bind. rewrite IH. now destruct (mapM_res g l).
Qed.

Lemma bind_comprehension_pure {A B C} (f : A -> M B) (g : A -> res B)
      (k : list B -> M C) l s :
  (forall x s, f x s = (g x, s)) ->
  bind (comprehension f l) k s
  = match mapM_res g l with Ok ys => k ys s | Raise e => (Raise e, s) end.
Proof.
  intros H. unfold bind. rewrite (comprehension_pure f g l s H).
  now destruct (mapM_res g l).
Qed.

(** What the subscripts and the loops raise is never a
    [SpotifyException]. *)
Lemma getitem_not_spotify v k e :
  getitem v k = Raise e -> is_SpotifyException e = false.
Proof.
  destruct v as [| | | | |d]; simpl; try (intros [= <-]; reflexivity).
  destruct (d !! k); [discriminate|]. intros [= <-]. reflexivity.
Qed.

Lemma py_iter_not_spotify v e :
  py_iter v = Raise e -> is_SpotifyException e = false.
Proof.
  destruct v; simpl; try discriminate; intros [= <-]; reflexivity.
Qed.

Lemma mapM_res_not_spotify {A B} (g : A -> res B) l e :
  (forall x e, g x = Raise e -> is_SpotifyException e = false) ->
  mapM_res g l = Raise e -> is_SpotifyException e = false.
Proof.
  intros H. induction l as [|x l IH]; simpl; [discriminate|].
  destruct (g x) as [y|e'] eqn:G; simpl.
  - destruct (mapM_res g l); simpl; [discriminate|].
    intros [= <-]. now apply IH.
  - intros [= <-]. now apply (H x).
Qed.

Lemma mapM_res_length {A B} (g : A -> res B) l ys :
  mapM_res g l = Ok ys -> length ys = length l.
Proof.
  revert ys. induction l as [|x l IH]; intros ys; simpl.
  - now intros [= <-].
  - destruct (g x) as [y|]; simpl; [|discriminate].
    destruct (mapM_res g l) as [ys'|]; simpl; [|discriminate].
    intros [= <-]. simpl. now rewrite (IH ys').
Qed.

Lemma mapM_res_Forall {A B} (g : A -> res B) (P : B -> Prop) l ys :
  (forall x y, g x = Ok y -> P y) ->
  mapM_res g l = Ok ys -> Forall P ys.
Proof.
  intros H. revert ys. induction l as [|x l IH]; intros ys; simpl.
  - intros [= <-]. constructor.
  - destruct (g x) as [y|] eqn:G; simpl; [|discriminate].
    destruct (mapM_res g l) as [ys'|]; simpl; [|discriminate].
    intros [= <-]. constructor; eauto.
Qed.

Ltac res_step :=
  match goal with
  | |- context [res_bind (getitem ?v ?k) _] =>
      let E := fresh "E" in
      destruct (getitem v k) eqn:E; simpl;
      [| intros [= <-]; exact (getitem_not_spotify _ _ _ E)]
  | |- context [res_bind (py_iter ?v) _] =>
      let E := fresh "E" in
      destruct (py_iter v) eqn:E; simpl;
      [| intros [= <-]; exact (py_iter_not_spotify _ _ E)]
  end.

Ltac map_step Hmap :=
  match goal with
  | |- context [res_bind (mapM_res ?g ?l) _] =>
      destruct (mapM_res g l) eqn:Hmap; simpl
  end.

Lemma playlist_entry_not_spotify playlist e :
  playlist_entry playlist = Raise e -> is_SpotifyException e = false.
Proof. unfold playlist_entry. repeat res_step. discriminate. Qed.

Lemma track_entry_not_spotify track e :
  track_entry track = Raise e -> is_SpotifyException e = false.
Proof.
  unfold track_entry. do 4 res_step. map_step Hmap.
  - repeat res_step. discriminate.
  - intros [= <-]. apply (mapM_res_not_spotify _ _ _ (fun x e => getitem_not_spotify x "name" e) Hmap).
Qed.

Lemma playlists_body_not_spotify playlists e :
  playlists_body playlists = Raise e -> is_SpotifyException e = false.
Proof.
  unfold playlists_body. repeat res_step. map_step Hmap; [discriminate|].
  intros [= <-]. exact (mapM_res_not_spotify _ _ _ playlist_entry_not_spotify Hmap).
Qed.

Lemma tracks_body_not_spotify results e :
  tracks_body results = Raise e -> is_SpotifyException e = false.
Proof.
  unfold tracks_body. repeat res_step. map_step Hmap; [discriminate|].
  intros [= <-]. exact (mapM_res_not_spotify _ _ _ track_entry_not_spotify Hmap).
Qed.

Ltac lift_step :=
  rewrite bind_lift;
  match goal with
  | |- match ?r with Ok _ => _ | Raise _ => _ end = _ =>
      destruct r; simpl; [|reflexivity]
  end.

Section ApiRoutes.

Variable env : Env.

Lemma bind_api {B} (c : api_call) (k : pyval -> M B) s :
  bind (api env c) k s
  = match env_api env (trace s) c with
    | Ok v => k v (MkState (session s) (permanent s) (trace s ++ [EvApi c]))
    | Raise e =>
        (Raise e, MkState (session s) (permanent s) (trace s ++ [EvApi c]))
    end.
Proof. unfold bind, api. now destruct (env_api env (trace s) c). Qed.

(** [get_user_playlists] with a client in hand, computed. *)
Lemma get_user_playlists_eq s s' sp :
  get_spotify_client env s = (Ok (Some sp), s') ->
  get_user_playlists env s =
    let called := trace s' ++ [EvApi (current_user_playlists sp 50)] in
    match env_api env (trace s') (current_user_playlists sp 50) with
    | Ok playlists =>
        match playlists_body playlists with
        | Ok body =>
            (Ok (MkResponse 200 (Json body)),
             MkState (session s') (permanent s') called)
        | Raise e =>
            (Ok (MkResponse 500 (Json (PDict
                   {["error" := PStr "Internal server error"]}))),
             MkState (session s') (permanent s')
               (called ++ [EvLog ("Unexpected error in get_user_playlists: "
                                  +:+ str e)]))
        end
    | Raise e =>
        if is_SpotifyException e then
          (Ok (MkResponse 400 (Json (PDict
                 {["error" := PStr ("Spotify API error: " +:+ str e)]}))),
           MkState (session s') (permanent s')
             (called ++ [EvLog ("Spotify API error in get_user_playlists: "
                                +:+ str e)]))
        else
          (Ok (MkResponse 500 (Json (PDict
                 {["error" := PStr "Internal server error"]}))),
           MkState (session s') (permanent s')
             (called ++ [EvLog ("Unexpected error in get_user_playlists: "
                                +:+ str e)]))
    end.
Proof.
  intros G. unfold get_user_playlists. rewrite (bind_Ok _ _ _ _ _ G).
  unfold try_except2, try_except. rewrite bind_api. cbv zeta.
  destruct (env_api env (trace s') (current_user_playlists sp 50))
    as [playlists|e].
  - unfold playlists_body. rewrite bind_lift.
    destruct (getitem playlists "items") as [items|e] eqn:E1; simpl;
      [|now rewrite (getitem_not_spotify _ _ _ E1)].
    rewrite bind_lift.
    destruct (py_iter items) as [l|e] eqn:E2; simpl;
      [|now rewrite (py_iter_not_spotify _ _ E2)].
    rewrite (bind_comprehension_pure _ playlist_entry).
    + destruct (mapM_res playlist_entry l) as [out|e] eqn:E3; simpl;
        [reflexivity|].
      now rewrite (mapM_res_not_spotify _ _ _ playlist_entry_not_spotify E3).
    + intros playlist st. unfold playlist_entry.
      repeat lift_step. reflexivity.
  - now destruct (is_SpotifyException e).
Qed.

(** [search_tracks] with a client in hand and a query, computed. *)
Lemma search_tracks_eq s s' sp request_args q :
  get_spotify_client env s = (Ok (Some sp), s') ->
  request_args !! "q" = Some q -> q <> "" ->
  search_tracks env request_args s =
    let called := trace s' ++ [EvApi (search sp q "track" 20)] in
    match env_api env (trace s') (search sp q "track" 20) with
    | Ok results =>
        match tracks_body results with
        | Ok body =>
            (Ok (MkResponse 200 (Json body)),
             MkState (session s') (permanent s') called)
        | Raise e =>
            (Ok (MkResponse 500 (Json (PDict
                   {["error" := PStr "Internal server error"]}))),
             MkState (session s') (permanent s')
               (called ++ [EvLog ("Unexpected error in search_tracks: "
                                  +:+ str e)]))
        end
    | Raise e =>
        if is_SpotifyException e then
          (Ok (MkResponse 400 (Json (PDict
                 {["error" := PStr ("Spotify API error: " +:+ str e)]}))),
           MkState (session s') (permanent s')
             (called ++ [EvLog ("Spotify API error in search_tracks: "
                                +:+ str e)]))
        else
          (Ok (MkResponse 500 (Json (PDict
                 {["error" := PStr "Internal server error"]}))),
           MkState (session s') (permanent s')
             (called ++ [EvLog ("Unexpected error in search_tracks: "
                                +:+ str e)]))
    end.
Proof.
  intros G Q N. unfold search_tracks. rewrite (bind_Ok _ _ _ _ _ G).
  unfold try_except2, try_except. rewrite Q. simpl.
  apply String.eqb_neq in N. rewrite N. rewrite bind_api.
  destruct (env_api env (trace s') (search sp q "track" 20)) as [results|e].
  - unfold tracks_body. rewrite bind_lift.
    destruct (getitem results "tracks") as [found|e] eqn:E0; simpl;
      [|now rewrite (getitem_not_spotify _ _ _ E0)].
    rewrite bind_lift.
    destruct (getitem found "items") as [items|e] eqn:E1; simpl;
      [|now rewrite (getitem_not_spotify _ _ _ E1)].
    rewrite bind_lift.
    destruct (py_iter items) as [l|e] eqn:E2; simpl;
      [|now rewrite (py_iter_not_spotify _ _ E2)].
    rewrite (bind_comprehension_pure _ track_entry).
    + destruct (mapM_res track_entry l) as [out|e] eqn:E3; simpl;
        [reflexivity|].
      now rewrite (mapM_res_not_spotify _ _ _ track_entry_not_spotify E3).
    + intros track st. unfold track_entry.
      do 4 lift_step.
      rewrite (bind_comprehension_pure
                 _ (fun artist => getitem artist "name"));
        [|intros artist st'; reflexivity].
      match goal with
      | |- match ?r with Ok _ => _ | Raise _ => _ end = _ =>
          destruct r; simpl; [|reflexivity]
      end.
      repeat lift_step. reflexivity.
  - now destruct (is_SpotifyException e).
Qed.

End ApiRoutes.

Section ApiRoutesMore.

Variable env : Env.

(** X15. [/api/user/playlists] and [/api/search] never raise once the
    authenticator has answered: each returns a JSON body with status 200,
    400, 401 or 500, leaves the session as the authenticator left it and
    makes at most one Web API call. *)
Theorem api_routes_always_answer s o s' request_args :
  get_spotify_client env s = (Ok o, s') ->
  (exists r s'',
     get_user_playlists env s = (Ok r, s'') /\
     (exists body, content r = Json body) /\
     (status r = 200 \/ status r = 400 \/ status r = 401 \/ status r = 500)%Z /\
     session s'' = session s' /\
     count is_api (trace s'') <= count is_api (trace s) + 1) /\
  (exists r s'',
     search_tracks env request_args s = (Ok r, s'') /\
     (exists body, content r = Json body) /\
     (status r = 200 \/ status r = 400 \/ status r = 401 \/ status r = 500)%Z /\
     session s'' = session s' /\
     count is_api (trace s'') <= count is_api (trace s) + 1).
Proof.
  intros G. pose proof (frame_api_count env _ _ _ G) as F.
  destruct o as [sp|].
  - split.
    + rewrite (get_user_playlists_eq env s s' sp G). cbv zeta.
      destruct (env_api env (trace s') _) as [v|e];
        [destruct (playlists_body v) | destruct (is_SpotifyException e)];
        (do 2 eexists; split; [reflexivity|]; simpl;
         split; [eauto|]; split; [tauto|]; split; [reflexivity|];
         rewrite ?count_app, F; frame_done).
    + destruct (request_args !! "q") as [q|] eqn:Q;
        [destruct (String.eqb_spec q "") as [->|N]|].
      * unfold search_tracks. rewrite (bind_Ok _ _ _ _ _ G).
        unfold try_except2, try_except. rewrite Q. simpl.
        do 2 eexists. split; [reflexivity|]. simpl.
        split; [eauto|]. split; [tauto|]. split; [reflexivity|]. lia.
      * rewrite (search_tracks_eq env s s' sp request_args q G Q N). cbv zeta.
        destruct (env_api env (trace s') _) as [v|e];
          [destruct (tracks_body v) | destruct (is_SpotifyException e)];
          (do 2 eexists; split; [reflexivity|]; simpl;
           split; [eauto|]; split; [tauto|]; split; [reflexivity|];
           rewrite ?count_app, F; frame_done).
      * unfold search_tracks. rewrite (bind_Ok _ _ _ _ _ G).
        unfold try_except2, try_except. rewrite Q. simpl.
        do 2 eexists. split; [reflexivity|]. simpl.
        split; [eauto|]. split; [tauto|]. split; [reflexivity|]. lia.
  - split.
    + unfold get_user_playlists. rewrite (bind_Ok _ _ _ _ _ G).
      do 2 eexists. split; [reflexivity|]. simpl.
      split; [eauto|]. split; [tauto|]. split; [reflexivity|]. lia.
    + unfold search_tracks. rewrite (bind_Ok _ _ _ _ _ G).
      do 2 eexists. split; [reflexivity|]. simpl.
      split; [eauto|]. split; [tauto|]. split; [reflexivity|]. lia.
Qed.

(** X16. When the Web API call of [/api/user/playlists] or of
    [/api/search] raises: a [SpotifyException] gives status 400 and its
    message goes into the body after "Spotify API error: "; an exception
    of any other class gives status 500 with the fixed body "Internal
    server error", its message going to the log only. *)
Theorem api_routes_upstream_error s s' sp request_args q e :
  get_spotify_client env s = (Ok (Some sp), s') ->
  request_args !! "q" = Some q -> q <> "" ->
  (env_api env (trace s') (current_user_playlists sp 50) = Raise e ->
   (get_user_playlists env s).1
   = Ok (if is_SpotifyException e
         then MkResponse 400 (Json (PDict
                {["error" := PStr ("Spotify API error: " +:+ str e)]}))
         else MkResponse 500 (Json (PDict
                {["error" := PStr "Internal server error"]})))) /\
  (env_api env (trace s') (search sp q "track" 20) = Raise e ->
   (search_tracks env request_args s).1
   = Ok (if is_SpotifyException e
         then MkResponse 400 (Json (PDict
                {["error" := PStr ("Spotify API error: " +:+ str e)]}))
         else MkResponse 500 (Json (PDict
                {["error" := PStr "Internal server error"]})))).
Proof.
  intros G Q N. split; intros A.
  - rewrite (get_user_playlists_eq env s s' sp G). cbv zeta. rewrite A.
    now destruct (is_SpotifyException e).
  - rewrite (search_tracks_eq env s s' sp request_args q G Q N). cbv zeta.
    rewrite A. now destruct (is_SpotifyException e).
Qed.

(** X17. When the Web API call of [/api/user/playlists] returns: the
    answer is 200 with the projected list if the returned value has an
    iterable [items] whose every element has [id], [name],
    [tracks.total], [public] and [external_urls.spotify]; otherwise it is
    500 "Internal server error", for the whole list, and the missing
    piece is named in the log only. *)
Theorem get_user_playlists_projection s s' sp playlists :
  get_spotify_client env s = (Ok (Some sp), s') ->
  env_api env (trace s') (current_user_playlists sp 50) = Ok playlists ->
  (forall body,
     playlists_body playlists = Ok body ->
     get_user_playlists env s
     = (Ok (MkResponse 200 (Json body)),
        MkState (session s') (permanent s')
                (trace s' ++ [EvApi (current_user_playlists sp 50)]))) /\
  (forall e,
     playlists_body playlists = Raise e ->
     get_user_playlists env s
     = (Ok (MkResponse 500 (Json (PDict
              {["error" := PStr "Internal server error"]}))),
        MkState (session s') (permanent s')
                (trace s' ++ [EvApi (current_user_playlists sp 50);
                              EvLog ("Unexpected error in get_user_playlists: "
                                     +:+ str e)]))).
Proof.
  intros G A.
  split; intros x B; rewrite (get_user_playlists_eq env s s' sp G);
    cbv zeta; rewrite A, B; [reflexivity|]. now rewrite <- app_assoc.
Qed.

(** X18. When the Web API call of [/api/search] returns: the answer is
    200 with the projected list if the returned value has an iterable
    [tracks.items] whose every element has [uri], [name], an iterable
    [artists] of objects with a [name], [album.name], [duration_ms] and
    [preview_url]; otherwise it is 500 "Internal server error", for the
    whole list. *)
Theorem search_tracks_projection s s' sp request_args q results :
  get_spotify_client env s = (Ok (Some sp), s') ->
  request_args !! "q" = Some q -> q <> "" ->
  env_api env (trace s') (search sp q "track" 20) = Ok results ->
  (forall body,
     tracks_body results = Ok body ->
     search_tracks env request_args s
     = (Ok (MkResponse 200 (Json body)),
        MkState (session s') (permanent s')
                (trace s' ++ [EvApi (search sp q "track" 20)]))) /\
  (forall e,
     tracks_body results = Raise e ->
     search_tracks env request_args s
     = (Ok (MkResponse 500 (Json (PDict
              {["error" := PStr "Internal server error"]}))),
        MkState (session s') (permanent s')
                (trace s' ++ [EvApi (search sp q "track" 20);
                              EvLog ("Unexpected error in search_tracks: "
                                     +:+ str e)]))).
Proof.
  intros G Q N A.
  split; intros x B;
    rewrite (search_tracks_eq env s s' sp request_args q G Q N);
    cbv zeta; rewrite A, B; [reflexivity|]. now rewrite <- app_assoc.
Qed.

End ApiRoutesMore.

(** ** The bodies of the API routes *)

Ltac res_inv :=
  match goal with
  | |- res_bind ?r _ = Ok _ -> _ =>
      let x := fresh "x" in destruct r as [x|]; simpl; [|discriminate]
  end.

Lemma playlist_entry_keys playlist o :
  playlist_entry playlist = Ok o ->
  exists d, o = PDict d /\
            dom d = ({["id"; "name"; "tracks"; "public"; "url"]} : gset string).
Proof.
  unfold playlist_entry. repeat res_inv. intros [= <-].
  eexists. split; [reflexivity|]. simpl.
  rewrite !dom_insert_L, dom_empty_L. set_solver.
Qed.

Lemma track_entry_keys track o :
  track_entry track = Ok o ->
  exists d names,
    o = PDict d /\
    dom d = ({["uri"; "name"; "artists"; "album"; "duration_ms";
               "preview_url"]} : gset string) /\
    d !! "artists" = Some (PList names).
Proof.
  unfold track_entry. repeat res_inv. intros [= <-].
  do 2 eexists. split; [reflexivity|]. simpl. split.
  - rewrite !dom_insert_L, dom_empty_L. set_solver.
  - reflexivity.
Qed.

(** The shape of a playlist body. *)
Lemma playlists_body_shape playlists body :
  playlists_body playlists = Ok body ->
  exists items out,
    res_bind (getitem playlists "items") py_iter = Ok items /\
    body = PDict {["playlists" := PList out]} /\
    length out = length items /\
    Forall (fun o => exists d,
              o = PDict d /\
              dom d = ({["id"; "name"; "tracks"; "public"; "url"]}
                       : gset string)) out.
Proof.
  unfold playlists_body.
  destruct (getitem playlists "items") as [v|]; simpl; [|discriminate].
  destruct (py_iter v) as [items|]; simpl; [|discriminate].
  destruct (mapM_res playlist_entry items) as [out|] eqn:E; simpl;
    [|discriminate].
  intros [= <-]. exists items, out. split; [reflexivity|].
  split; [reflexivity|]. split; [exact (mapM_res_length _ _ _ E)|].
  exact (mapM_res_Forall _ _ _ _ playlist_entry_keys E).
Qed.

(** The shape of a track body. *)
Lemma tracks_body_shape results body :
  tracks_body results = Ok body ->
  exists items out,
    res_bind (getitem results "tracks")
      (fun found => res_bind (getitem found "items") py_iter) = Ok items /\
    body = PDict {["tracks" := PList out]} /\
    length out = length items /\
    Forall (fun o => exists d names,
              o = PDict d /\
              dom d = ({["uri"; "name"; "artists"; "album"; "duration_ms";
                         "preview_url"]} : gset string) /\
              d !! "artists" = Some (PList names)) out.
Proof.
  unfold tracks_body.
  destruct (getitem results "tracks") as [found|]; simpl; [|discriminate].
  destruct (getitem found "items") as [v|]; simpl; [|discriminate].
  destruct (py_iter v) as [items|]; simpl; [|discriminate].
  destruct (mapM_res track_entry items) as [out|] eqn:E; simpl;
    [|discriminate].
  intros [= <-]. exists items, out. split; [reflexivity|].
  split; [reflexivity|]. split; [exact (mapM_res_length _ _ _ E)|].
  exact (mapM_res_Forall _ _ _ _ track_entry_keys E).
Qed.

Section ApiRoutesShape.

Variable env : Env.

(** X19. When [/api/user/playlists] answers 200, its body is a dict with
    the one key [playlists], a list with one entry for each element of
    the [items] that the Web API returned, and every entry has the five
    keys [id], [name], [tracks], [public] and [url] and no other,
    whatever else the Web API sent. *)
Theorem get_user_playlists_ok_shape s s' sp playlists r s'' :
  get_spotify_client env s = (Ok (Some sp), s') ->
  env_api env (trace s') (current_user_playlists sp 50) = Ok playlists ->
  get_user_playlists env s = (Ok r, s'') ->
  status r = 200%Z ->
  exists items out,
    res_bind (getitem playlists "items") py_iter = Ok items /\
    content r = Json (PDict {["playlists" := PList out]}) /\
    length out = length items /\
    Forall (fun o => exists d,
              o = PDict d /\
              dom d = ({["id"; "name"; "tracks"; "public"; "url"]}
                       : gset string)) out.
Proof.
  intros G A R S.
  rewrite (get_user_playlists_eq env s s' sp G) in R. cbv zeta in R.
  rewrite A in R.
  destruct (playlists_body playlists) as [body|e] eqn:B.
  - injection R as <- <-.
    destruct (playlists_body_shape _ _ B) as (items & out & I & -> & L & F).
    exists items, out. auto.
  - injection R as <- <-. discriminate S.
Qed.

(** X20. When [/api/search] answers 200, its body is a dict with the one
    key [tracks], a list with one entry for each element of the
    [tracks.items] that the Web API returned, and every entry has the six
    keys [uri], [name], [artists], [album], [duration_ms] and
    [preview_url] and no other, [artists] being a list. *)
Theorem search_tracks_ok_shape s s' sp request_args q results r s'' :
  get_spotify_client env s = (Ok (Some sp), s') ->
  request_args !! "q" = Some q -> q <> "" ->
  env_api env (trace s') (search sp q "track" 20) = Ok results ->
  search_tracks env request_args s = (Ok r, s'') ->
  status r = 200%Z ->
  exists items out,
    res_bind (getitem results "tracks")
      (fun found => res_bind (getitem found "items") py_iter) = Ok items /\
    content r = Json (PDict {["tracks" := PList out]}) /\
    length out = length items /\
    Forall (fun o => exists d names,
              o = PDict d /\
              dom d = ({["uri"; "name"; "artists"; "album"; "duration_ms";
                         "preview_url"]} : gset string) /\
              d !! "artists" = Some (PList names)) out.
Proof.
  intros G Q N A R S.
  rewrite (search_tracks_eq env s s' sp request_args q G Q N) in R.
  cbv zeta in R. rewrite A in R.
  destruct (tracks_body results) as [body|e] eqn:B.
  - injection R as <- <-.
    destruct (tracks_body_shape _ _ B) as (items & out & I & -> & L & F).
    exists items, out. auto.
  - injection R as <- <-. discriminate S.
Qed.

End ApiRoutesShape.

Lemma api_routes_always_answer_witness :
  exists r s'',
    search_tracks SampleSessions.offline {["q" := "test"]} Sample.logged_in
      = (Ok r, s'') /\
    (exists body, content r = Json body) /\
    (status r = 200 \/ status r = 400 \/ status r = 401 \/ status r = 500)%Z /\
    session s'' = session Sample.logged_in /\
    count is_api (trace s'') <= count is_api (trace Sample.logged_in) + 1.
Proof.
  exact (proj2 (api_routes_always_answer SampleSessions.offline
                  Sample.logged_in (Some (MkSpotify (PStr "old-access")))
                  Sample.logged_in {["q" := "test"]} eq_refl)).
Defined.

(** Rate limiting is a [SpotifyException]; a dropped connection is not. *)
Lemma api_routes_upstream_error_witness :
  (get_user_playlists (Sample.provider 100 true false) Sample.logged_in).1
    = Ok (MkResponse 400 (Json (PDict
            {["error" := PStr "Spotify API error: http status: 429"]}))) /\
  (search_tracks SampleSessions.offline {["q" := "test"]} Sample.logged_in).1
    = Ok (MkResponse 500 (Json (PDict
            {["error" := PStr "Internal server error"]}))).
Proof.
  split.
  - apply (api_routes_upstream_error (Sample.provider 100 true false)
             Sample.logged_in Sample.logged_in (MkSpotify (PStr "old-access"))
             {["q" := "test"]} "test" (Exn SpotifyException "http status: 429"));
      [reflexivity | reflexivity | discriminate | reflexivity].
  - apply (api_routes_upstream_error SampleSessions.offline
             Sample.logged_in Sample.logged_in (MkSpotify (PStr "old-access"))
             {["q" := "test"]} "test" (Exn OtherException "Connection aborted"));
      [reflexivity | reflexivity | discriminate | reflexivity].
Defined.

Lemma get_user_playlists_projection_witness :
  get_user_playlists (Sample.provider 100 true true) Sample.logged_in
    = (Ok (MkResponse 200 (Json (PDict {["playlists" := PList
            [PDict (list_to_map
               [("id", PStr "p1"); ("name", PStr "Mix"); ("tracks", PInt 2);
                ("public", PBool false);
                ("url", PStr "https://open.spotify.com/playlist/p1")])]]}))),
       MkState (session Sample.logged_in) true
               [EvApi (current_user_playlists (MkSpotify (PStr "old-access"))
                                              50)]) /\
  get_user_playlists SampleSessions.nameless Sample.logged_in
    = (Ok (MkResponse 500 (Json (PDict
             {["error" := PStr "Internal server error"]}))),
       MkState (session Sample.logged_in) true
               [EvApi (current_user_playlists (MkSpotify (PStr "old-access"))
                                              50);
                EvLog "Unexpected error in get_user_playlists: 'items'"]).
Proof.
  split.
  - destruct (get_user_playlists_projection (Sample.provider 100 true true)
                Sample.logged_in Sample.logged_in
                (MkSpotify (PStr "old-access"))
                (PDict {["items" := PList [Sample.sample_playlist]]})
                eq_refl eq_refl) as [H _].
    apply H. reflexivity.
  - destruct (get_user_playlists_projection SampleSessions.nameless
                Sample.logged_in Sample.logged_in
                (MkSpotify (PStr "old-access"))
                (PDict {["display_name" := PStr "Ann"]})
                eq_refl eq_refl) as [_ H].
    apply (H (Exn KeyError "'items'")). reflexivity.
Defined.

Lemma search_tracks_projection_witness :
  search_tracks (Sample.provider 100 true true) {["q" := "test"]}
                Sample.logged_in
    = (Ok (MkResponse 200 (Json (PDict {["tracks" := PList
            [PDict (list_to_map
               [("uri", PStr "spotify:track:1"); ("name", PStr "Song");
                ("artists", PList [PStr "Band"]); ("album", PStr "Record");
                ("duration_ms", PInt 1000); ("preview_url", PNone)])]]}))),
       MkState (session Sample.logged_in) true
               [EvApi (search (MkSpotify (PStr "old-access")) "test" "track"
                              20)]) /\
  search_tracks SampleSessions.nameless {["q" := "test"]} Sample.logged_in
    = (Ok (MkResponse 500 (Json (PDict
             {["error" := PStr "Internal server error"]}))),
       MkState (session Sample.logged_in) true
               [EvApi (search (MkSpotify (PStr "old-access")) "test" "track"
                              20);
                EvLog "Unexpected error in search_tracks: 'tracks'"]).
Proof.
  split.
  - destruct (search_tracks_projection (Sample.provider 100 true true)
                Sample.logged_in Sample.logged_in
                (MkSpotify (PStr "old-access")) {["q" := "test"]} "test"
                (PDict {["tracks" :=
                           PDict {["items" := PList [Sample.sample_track]]}]}))
      as [H _]; [reflexivity | reflexivity | discriminate | reflexivity |].
    apply H. reflexivity.
  - destruct (search_tracks_projection SampleSessions.nameless
                Sample.logged_in Sample.logged_in
                (MkSpotify (PStr "old-access")) {["q" := "test"]} "test"
                (PDict {["display_name" := PStr "Ann"]}))
      as [_ H]; [reflexivity | reflexivity | discriminate | reflexivity |].
    apply (H (Exn KeyError "'tracks'")). reflexivity.
Defined.

Lemma get_user_playlists_ok_shape_witness :
  exists items out,
    res_bind (getitem (PDict {["items" := PList [Sample.sample_playlist]]})
                      "items") py_iter = Ok items /\
    Json (PDict {["playlists" := PList
            [PDict (list_to_map
               [("id", PStr "p1"); ("name", PStr "Mix"); ("tracks", PInt 2);
                ("public", PBool false);
                ("url", PStr "https://open.spotify.com/playlist/p1")])]]})
      = Json (PDict {["playlists" := PList out]}) /\
    length out = length items /\
    Forall (fun o => exists d,
              o = PDict d /\
              dom d = ({["id"; "name"; "tracks"; "public"; "url"]}
                       : gset string)) out.
Proof.
  apply (get_user_playlists_ok_shape (Sample.provider 100 true true)
           Sample.logged_in Sample.logged_in (MkSpotify (PStr "old-access"))
           (PDict {["items" := PList [Sample.sample_playlist]]})
           (MkResponse 200 (Json (PDict {["playlists" := PList
              [PDict (list_to_map
                 [("id", PStr "p1"); ("name", PStr "Mix"); ("tracks", PInt 2);
                  ("public", PBool false);
                  ("url", PStr "https://open.spotify.com/playlist/p1")])]]})))
           (MkState (session Sample.logged_in) true
              [EvApi (current_user_playlists (MkSpotify (PStr "old-access"))
                                             50)]));
    reflexivity.
Defined.

Lemma search_tracks_ok_shape_witness :
  exists items out,
    res_bind (getitem (PDict {["tracks" :=
                         PDict {["items" := PList [Sample.sample_track]]}]})
                      "tracks")
      (fun found => res_bind (getitem found "items") py_iter) = Ok items /\
    Json (PDict {["tracks" := PList
            [PDict (list_to_map
               [("uri", PStr "spotify:track:1"); ("name", PStr "Song");
                ("artists", PList [PStr "Band"]); ("album", PStr "Record");
                ("duration_ms", PInt 1000); ("preview_url", PNone)])]]})
      = Json (PDict {["tracks" := PList out]}) /\
    length out = length items /\
    Forall (fun o => exists d names,
              o = PDict d /\
              dom d = ({["uri"; "name"; "artists"; "album"; "duration_ms";
                         "preview_url"]} : gset string) /\
              d !! "artists" = Some (PList names)) out.
Proof.
  apply (search_tracks_ok_shape (Sample.provider 100 true true)
           Sample.logged_in Sample.logged_in (MkSpotify (PStr "old-access"))
           {["q" := "test"]} "test"
           (PDict {["tracks" :=
                      PDict {["items" := PList [Sample.sample_track]]}]})
           (MkResponse 200 (Json (PDict {["tracks" := PList
              [PDict (list_to_map
                 [("uri", PStr "spotify:track:1"); ("name", PStr "Song");
                  ("artists", PList [PStr "Band"]); ("album", PStr "Record");
                  ("duration_ms", PInt 1000); ("preview_url", PNone)])]]})))
           (MkState (session Sample.logged_in) true
              [EvApi (search (MkSpotify (PStr "old-access")) "test" "track"
                             20)]));
    [reflexivity | reflexivity | discriminate | reflexivity | reflexivity
     | reflexivity].
Defined.

(** ** The main page and the static files *)

Section PagesMore.

Variable env : Env.
Variable authorize_url : string.
Variable py_repr : pyval -> string.

(** X21. [/] shows the login link, with status 200, in three cases:
    without a client; with a client whose [current_user] call raises,
    whatever the class of the exception; and with a user object that is
    not a dict or has no [id], even if it has a [display_name].  In the
    last two the token stays in the session and nothing is logged. *)
Theorem index_login_link s s' :
  (get_spotify_client env s = (Ok None, s') ->
   index env authorize_url py_repr s
     = (Ok (MkResponse 200 (Html (login_link authorize_url))), s')) /\
  (forall sp e,
     get_spotify_client env s = (Ok (Some sp), s') ->
     env_api env (trace s') (current_user sp) = Raise e ->
     index env authorize_url py_repr s
       = (Ok (MkResponse 200 (Html (login_link authorize_url))),
          MkState (session s') (permanent s')
                  (trace s' ++ [EvApi (current_user sp)]))) /\
  (forall sp user e,
     get_spotify_client env s = (Ok (Some sp), s') ->
     env_api env (trace s') (current_user sp) = Ok user ->
     dict_get_default user "display_name" (getitem user "id") = Raise e ->
     index env authorize_url py_repr s
       = (Ok (MkResponse 200 (Html (login_link authorize_url))),
          MkState (session s') (permanent s')
                  (trace s' ++ [EvApi (current_user sp)]))).
Proof.
  split; [|split].
  - intros G. unfold index. now rewrite (bind_Ok _ _ _ _ _ G).
  - intros sp e G A. unfold index. rewrite (bind_Ok _ _ _ _ _ G).
    unfold try_except, bind, api, ret. now rewrite A.
  - intros sp user e G A D. unfold index. rewrite (bind_Ok _ _ _ _ _ G).
    unfold try_except, bind, api, lift, ret. rewrite A. simpl. now rewrite D.
Qed.

(** X22. [/] with a client in hand and a user object that has an [id]:
    the page welcomes the user by the value stored under [display_name]
    when that key is present, [None] included, and by the [id] only when
    the key is absent. *)
Theorem index_welcome s s' sp d id :
  get_spotify_client env s = (Ok (Some sp), s') ->
  env_api env (trace s') (current_user sp) = Ok (PDict d) ->
  d !! "id" = Some id ->
  index env authorize_url py_repr s
    = (Ok (MkResponse 200 (Html (welcome_page
             (py_format py_repr (default id (d !! "display_name")))))),
       MkState (session s') (permanent s')
               (trace s' ++ [EvApi (current_user sp)])).
Proof.
  intros G A I. unfold index. rewrite (bind_Ok _ _ _ _ _ G).
  unfold try_except, bind, api, lift, ret. rewrite A. simpl. now rewrite I.
Qed.

(** X23. [/] never raises once the authenticator has answered: it
    returns an HTML page with status 200, leaves the session as the
    authenticator left it, logs nothing and makes at most one Web API
    call. *)
Theorem index_always_answers s o s' :
  get_spotify_client env s = (Ok o, s') ->
  exists body s'',
    index env authorize_url py_repr s
      = (Ok (MkResponse 200 (Html body)), s'') /\
    session s'' = session s' /\
    (trace s'' = trace s' \/
     exists sp, o = Some sp /\ trace s'' = trace s' ++ [EvApi (current_user sp)]).
Proof.
  intros G. unfold index. rewrite (bind_Ok _ _ _ _ _ G).
  destruct o as [sp|].
  - unfold try_except, bind, api, lift, ret, html.
    destruct (env_api env (trace s') (current_user sp)) as [user|e]; simpl.
    + destruct (dict_get_default user "display_name" (getitem user "id"));
        simpl; do 2 eexists; (split; [reflexivity|]); simpl; eauto.
    + do 2 eexists. split; [reflexivity|]. simpl. eauto.
  - unfold ret, html. do 2 eexists. split; [reflexivity|]. auto.
Qed.

Variable os_path_join : string -> string -> string.
Variable os_path_exists : string -> bool.
Variable send_from_directory : string -> string -> res response.

(** X24. [serve_frontend] called with the empty path, or with a path for
    which [os.path.exists(os.path.join("dist", path))] is false, sends
    [index.html] from [dist]: its answer is what [send_from_directory]
    returned for that file, with nothing logged, or, if that raised, the
    page "Frontend not found" with status 404 and one line in the log. *)
Theorem serve_frontend_fallback path s :
  path = "" \/ os_path_exists (os_path_join "dist" path) = false ->
  serve_frontend os_path_join os_path_exists send_from_directory path s
  = match send_from_directory "dist" "index.html" with
    | Ok r => (Ok r, s)
    | Raise e =>
        (Ok (MkResponse 404 (Html "Frontend not found")),
         MkState (session s) (permanent s)
                 (trace s ++ [EvLog ("Error serving frontend: " +:+ str e)]))
    end.
Proof.
  intros H. unfold serve_frontend, try_except, lift, bind, logger_error, emit,
    ret.
  assert (F : negb (String.eqb path "")
              && os_path_exists (os_path_join "dist" path) = false).
  { destruct H as [-> | ->]; [reflexivity|]. apply andb_false_r. }
  rewrite F. now destruct (send_from_directory "dist" "index.html").
Qed.

(** X25. [serve_frontend] never raises.  Its answer is what
    [send_from_directory] returned for the requested path or for
    [index.html], always under [dist]; or, when sending raised, the page
    "Frontend not found" with status 404 and one line in the log.  The
    session is not touched and Spotify is not contacted. *)
Theorem serve_frontend_always_answers path s :
  exists r s',
    serve_frontend os_path_join os_path_exists send_from_directory path s
      = (Ok r, s') /\
    session s' = session s /\ permanent s' = permanent s /\
    ((s' = s /\
      exists name, (name = path \/ name = "index.html") /\
                   send_from_directory "dist" name = Ok r) \/
     (r = MkResponse 404 (Html "Frontend not found") /\
      exists name e, (name = path \/ name = "index.html") /\
                     send_from_directory "dist" name = Raise e /\
                     trace s' = trace s ++ [EvLog ("Error serving frontend: "
                                                   +:+ str e)])).
Proof.
  unfold serve_frontend, try_except, lift, bind, logger_error, emit, ret.
  destruct (negb (String.eqb path "") && os_path_exists (os_path_join "dist" path)).
  - destruct (send_from_directory "dist" path) as [r|e] eqn:S.
    + do 2 eexists. split; [reflexivity|]. split; [reflexivity|].
      split; [reflexivity|]. left. split; [reflexivity|]. eauto.
    + do 2 eexists. split; [reflexivity|]. split; [reflexivity|].
      split; [reflexivity|]. right. split; [reflexivity|].
      exists path, e. auto.
  - destruct (send_from_directory "dist" "index.html") as [r|e] eqn:S.
    + do 2 eexists. split; [reflexivity|]. split; [reflexivity|].
      split; [reflexivity|]. left. split; [reflexivity|]. eauto.
    + do 2 eexists. split; [reflexivity|]. split; [reflexivity|].
      split; [reflexivity|]. right. split; [reflexivity|].
      exists "index.html", e. auto.
Qed.

End PagesMore.

(** ** The configuration *)

(** X26. The module loads exactly when [CLIENT_ID], [CLIENT_ID_SECRET] and
    [URI] are all set to non-empty values; [CLIENT_SECRET] and
    [REDIRECT_URI], the names in the error message, are not read. *)
Theorem load_config_succeeds_iff environ :
  (exists c, load_config environ = inr c) <->
  (exists id secret uri,
     environ !! "CLIENT_ID" = Some id /\ id <> "" /\
     environ !! "CLIENT_ID_SECRET" = Some secret /\ secret <> "" /\
     environ !! "URI" = Some uri /\ uri <> "").
Proof.
  unfold load_config. simpl. split.
  - intros [c H].
    destruct (environ !! "CLIENT_ID") as [id|]; simpl in H; [|discriminate].
    destruct (String.eqb_spec id ""); simpl in H; [discriminate|].
    destruct (environ !! "CLIENT_ID_SECRET") as [secret|]; simpl in H;
      [|discriminate].
    destruct (String.eqb_spec secret ""); simpl in H; [discriminate|].
    destruct (environ !! "URI") as [uri|]; simpl in H; [|discriminate].
    destruct (String.eqb_spec uri ""); simpl in H; [discriminate|].
    exists id, secret, uri. repeat split; assumption || reflexivity.
  - intros (id & secret & uri & -> & Ni & -> & Ns & -> & Nu). simpl.
    apply String.eqb_neq in Ni, Ns, Nu. rewrite Ni, Ns, Nu. simpl. eauto.
Qed.

(** X27. When the module loads, the three settings are the values of the
    environment, and the key that signs the session cookie is the value
    of [FLASK_SECRET_KEY] whenever that variable is set, the empty string
    included; only when it is unset is the key the Spotify client secret,
    which is then not empty. *)
Theorem load_config_secret_key environ c :
  load_config environ = inr c ->
  environ !! "CLIENT_ID" = Some (CLIENT_ID c) /\
  environ !! "CLIENT_ID_SECRET" = Some (CLIENT_SECRET c) /\
  environ !! "URI" = Some (REDIRECT_URI c) /\
  CLIENT_SECRET c <> "" /\
  secret_key c = match environ !! "FLASK_SECRET_KEY" with
                 | Some key => key
                 | None => CLIENT_SECRET c
                 end.
Proof.
  unfold load_config. simpl. intros H.
  destruct (environ !! "CLIENT_ID") as [id|]; simpl in H; [|discriminate].
  destruct (String.eqb_spec id ""); simpl in H; [discriminate|].
  destruct (environ !! "CLIENT_ID_SECRET") as [secret|]; simpl in H;
    [|discriminate].
  destruct (String.eqb_spec secret ""); simpl in H; [discriminate|].
  destruct (environ !! "URI") as [uri|]; simpl in H; [|discriminate].
  destruct (String.eqb_spec uri ""); simpl in H; [discriminate|].
  injection H as <-. simpl.
  repeat split; try reflexivity; assumption.
Qed.

Lemma index_login_link_witness :
  index (Sample.provider 100 true true) SampleFiles.authorize SampleFiles.repr
        Sample.anonymous
    = (Ok (MkResponse 200 (Html (login_link SampleFiles.authorize))),
       Sample.anonymous) /\
  index SampleSessions.offline SampleFiles.authorize SampleFiles.repr
        Sample.logged_in
    = (Ok (MkResponse 200 (Html (login_link SampleFiles.authorize))),
       MkState (session Sample.logged_in) true
               [EvApi (current_user (MkSpotify (PStr "old-access")))]) /\
  index SampleSessions.nameless SampleFiles.authorize SampleFiles.repr
        Sample.logged_in
    = (Ok (MkResponse 200 (Html (login_link SampleFiles.authorize))),
       MkState (session Sample.logged_in) true
               [EvApi (current_user (MkSpotify (PStr "old-access")))]).
Proof.
  split; [|split].
  - destruct (index_login_link (Sample.provider 100 true true)
                SampleFiles.authorize SampleFiles.repr
                Sample.anonymous Sample.anonymous) as (H & _ & _).
    apply H. reflexivity.
  - destruct (index_login_link SampleSessions.offline
                SampleFiles.authorize SampleFiles.repr
                Sample.logged_in Sample.logged_in) as (_ & H & _).
    apply (H (MkSpotify (PStr "old-access"))
             (Exn OtherException "Connection aborted")); reflexivity.
  - destruct (index_login_link SampleSessions.nameless
                SampleFiles.authorize SampleFiles.repr
                Sample.logged_in Sample.logged_in) as (_ & _ & H).
    apply (H (MkSpotify (PStr "old-access"))
             (PDict {["display_name" := PStr "Ann"]})
             (Exn KeyError "'id'")); reflexivity.
Defined.

Lemma index_welcome_witness :
  index (Sample.provider 100 true true) SampleFiles.authorize SampleFiles.repr
        Sample.logged_in
    = (Ok (MkResponse 200 (Html (welcome_page "Ann"))),
       MkState (session Sample.logged_in) true
               [EvApi (current_user (MkSpotify (PStr "old-access")))]).
Proof.
  exact (index_welcome (Sample.provider 100 true true)
           SampleFiles.authorize SampleFiles.repr
           Sample.logged_in Sample.logged_in (MkSpotify (PStr "old-access"))
           (list_to_map [("id", PStr "u1"); ("display_name", PStr "Ann")])
           (PStr "u1") eq_refl eq_refl eq_refl).
Defined.

Lemma index_always_answers_witness :
  exists body s'',
    index SampleSessions.offline SampleFiles.authorize SampleFiles.repr
          Sample.logged_in
      = (Ok (MkResponse 200 (Html body)), s'') /\
    session s'' = session Sample.logged_in /\
    (trace s'' = trace Sample.logged_in \/
     exists sp, Some (MkSpotify (PStr "old-access")) = Some sp /\
                trace s'' = trace Sample.logged_in ++ [EvApi (current_user sp)]).
Proof.
  exact (index_always_answers SampleSessions.offline
           SampleFiles.authorize SampleFiles.repr Sample.logged_in
           (Some (MkSpotify (PStr "old-access"))) Sample.logged_in eq_refl).
Defined.

(** A missing file with the bundle readable, and with every read
    failing. *)
Lemma serve_frontend_fallback_witness :
  serve_frontend SampleFiles.join SampleFiles.exists_ (SampleFiles.send false)
                 "missing.js" Sample.anonymous
    = (Ok (MkResponse 200 (Html "contents of dist/index.html")),
       Sample.anonymous) /\
  serve_frontend SampleFiles.join SampleFiles.exists_ (SampleFiles.send true)
                 "missing.js" Sample.anonymous
    = (Ok (MkResponse 404 (Html "Frontend not found")),
       MkState ∅ false [EvLog "Error serving frontend: 404 Not Found"]).
Proof.
  split.
  - apply (serve_frontend_fallback SampleFiles.join SampleFiles.exists_
             (SampleFiles.send false) "missing.js" Sample.anonymous).
    right. reflexivity.
  - apply (serve_frontend_fallback SampleFiles.join SampleFiles.exists_
             (SampleFiles.send true) "missing.js" Sample.anonymous).
    right. reflexivity.
Defined.

Lemma load_config_succeeds_iff_witness :
  exists c, load_config SampleFiles.environ = inr c.
Proof.
  apply (proj2 (load_config_succeeds_iff SampleFiles.environ)).
  exists "abc", "s3cret", "http://localhost:5000/callback".
  repeat split; reflexivity || discriminate.
Defined.

(** [FLASK_SECRET_KEY] set to the empty string: the signing key is empty. *)
Lemma load_config_secret_key_witness :
  secret_key
    {| CLIENT_ID := "abc"; CLIENT_SECRET := "s3cret";
       REDIRECT_URI := "http://localhost:5000/callback";
       SCOPE := "playlist-modify-public playlist-modify-private user-top-read user-read-private";
       secret_key := "";
       SESSION_COOKIE_NAME := "spotify-login-session";
       SESSION_COOKIE_SECURE := false;
       SESSION_COOKIE_HTTPONLY := true;
       PERMANENT_SESSION_LIFETIME := 3600 |}
  = match SampleFiles.environ !! "FLASK_SECRET_KEY" with
    | Some key => key
    | None => "s3cret"
    end.
Proof.
  apply (load_config_secret_key SampleFiles.environ
           {| CLIENT_ID := "abc"; CLIENT_SECRET := "s3cret";
              REDIRECT_URI := "http://localhost:5000/callback";
              SCOPE := "playlist-modify-public playlist-modify-private user-top-read user-read-private";
              secret_key := "";
              SESSION_COOKIE_NAME := "spotify-login-session";
              SESSION_COOKIE_SECURE := false;
              SESSION_COOKIE_HTTPONLY := true;
              PERMANENT_SESSION_LIFETIME := 3600 |}).
  reflexivity.
Defined.
